(** * ConfigurationManagement: the configuration panel page

    A shallow embedding of [webui/src/pages/ConfigurationManagement.tsx].

    The page is a React function component: nine [useState] cells, two
    [useEffect] hooks and a handful of handlers, three of which are
    [async] functions wrapping one HTTP call in [try]/[catch]/[finally].

    - Strings are [string]; one [ascii] stands for one character.  The
      Chinese labels and notification texts are constants that no
      operation inspects.
    - JSON values are the inductive [Json]; a number is held as the text
      [Number::toString] gives for it (generating its digits is the
      engine's work, not the page's), an object is the list of its
      properties in enumeration order.
    - A handler body is a computation in the monad [M]: it threads the nine
      state cells, may throw, and records in order the effects it performs
      (setter calls, HTTP requests, [console.error], [alert]).  An awaited
      request is answered on the spot by the [ApiClient] the computation
      runs against, so an [async] function runs from its first statement
      to its last without another handler running in between.
    - React is modelled by [render_pass]: a render followed by the effects
      whose dependency arrays changed, each with the values of that render;
      all updates of a handler are applied before the next render. *)

From Stdlib Require Import List String Ascii ZArith Lia Bool Arith DecimalString.
Import ListNotations.
Local Open Scope string_scope.
Local Set Warnings "-register-all".

(** ** JavaScript strings *)

Module JsString.

(** [s.slice(0, -1)]: all characters but the last; the empty string stays
    empty. *)
Fixpoint slice_0_m1 (s : string) : string :=
  match s with
  | EmptyString => EmptyString
  | String _ EmptyString => EmptyString
  | String c rest => String c (slice_0_m1 rest)
  end.

(** Truthiness of a string: only the empty string is falsy. *)
Definition truthy (s : string) : bool :=
  match s with
  | EmptyString => false
  | String _ _ => true
  end.

(** [arr.join(sep)]. *)
Fixpoint join (sep : string) (parts : list string) : string :=
  match parts with
  | [] => ""
  | [p] => p
  | p :: rest => p ++ sep ++ join sep rest
  end.

Definition double_quote : string := String "034"%char EmptyString.
Definition backslash : string := String "092"%char EmptyString.
Definition newline : string := String "010"%char EmptyString.

End JsString.

(** ** JSON values, [JSON.stringify] and [JSON.parse] *)

Inductive Json : Type :=
| JNull
| JBool (b : bool)
| JNumber (text : string)
| JString (s : string)
| JArray (elements : list Json)
| JObject (properties : list (string * Json)).

Module JSON.
Import JsString.

Definition hex_digit (n : nat) : ascii :=
  match n with
  | 0 => "0" | 1 => "1" | 2 => "2" | 3 => "3" | 4 => "4" | 5 => "5"
  | 6 => "6" | 7 => "7" | 8 => "8" | 9 => "9" | 10 => "a" | 11 => "b"
  | 12 => "c" | 13 => "d" | 14 => "e" | _ => "f"
  end%char.

(** One character of [QuoteJSONString]: the two-character escapes, the
    [\u00xx] form for the other control characters, the character itself
    otherwise. *)
Definition quote_char (c : ascii) : string :=
  let n := nat_of_ascii c in
  if Nat.eqb n 8 then backslash ++ "b"
  else if Nat.eqb n 9 then backslash ++ "t"
  else if Nat.eqb n 10 then backslash ++ "n"
  else if Nat.eqb n 12 then backslash ++ "f"
  else if Nat.eqb n 13 then backslash ++ "r"
  else if Nat.eqb n 34 then backslash ++ double_quote
  else if Nat.eqb n 92 then backslash ++ backslash
  else if Nat.ltb n 32 then
    backslash ++ "u00"
      ++ String (hex_digit (Nat.div n 16)) (String (hex_digit (Nat.modulo n 16)) "")
  else String c "".

Fixpoint quote_chars (s : string) : string :=
  match s with
  | EmptyString => ""
  | String c rest => quote_char c ++ quote_chars rest
  end.

Definition QuoteJSONString (s : string) : string :=
  double_quote ++ quote_chars s ++ double_quote.

(** [Number::toString] on an integer that every JavaScript number up to
    [2^53] in absolute value represents exactly: its decimal digits. *)
Definition integer_text (n : Z) : string :=
  NilZero.string_of_int (Z.to_int n).

(** The text of the number an integer literal denotes, when the integer is
    at most [2^53] in absolute value; larger literals are rounded by the
    engine and are outside the model. *)
Definition number_token (n : Z) : option string :=
  if (Z.abs n <=? 9007199254740992)%Z then Some (integer_text n) else None.

(** The wrapper shared by [SerializeJSONObject] and [SerializeJSONArray]:
    [partial] are the serialised members, [indent] the new indentation and
    [stepback] the enclosing one. *)
Definition wrap (open close gap stepback indent : string) (partial : list string) : string :=
  match partial with
  | [] => open ++ close
  | _ =>
      if truthy gap
      then open ++ newline ++ indent ++ join ("," ++ newline ++ indent) partial
                ++ newline ++ stepback ++ close
      else open ++ join "," partial ++ close
  end.

(** [SerializeJSONProperty] with the state's [gap] and current [indent]. *)
Fixpoint SerializeJSONProperty (gap indent : string) (v : Json) : string :=
  match v with
  | JNull => "null"
  | JBool true => "true"
  | JBool false => "false"
  | JNumber text => text
  | JString s => QuoteJSONString s
  | JArray elements =>
      let inner := indent ++ gap in
      wrap "[" "]" gap indent inner (map (SerializeJSONProperty gap inner) elements)
  | JObject properties =>
      let inner := indent ++ gap in
      let member (p : string * Json) :=
        QuoteJSONString (fst p) ++ ":" ++ (if truthy gap then " " else "")
          ++ SerializeJSONProperty gap inner (snd p) in
      wrap "{" "}" gap indent inner (map member properties)
  end.

Fixpoint spaces (n : nat) : string :=
  match n with
  | O => ""
  | S k => String " "%char (spaces k)
  end.

(** [JSON.stringify(value, null, space)] for a numeric [space]: the gap is
    [min(10, space)] blanks. *)
Definition stringify (value : Json) (space : nat) : string :=
  SerializeJSONProperty (spaces (Nat.min 10 space)) "" value.

(** *** The 2-space layout, line by line

    What the spec calls the 2-space pretty-printed serialization, written
    without reference to the serializer above: a value is a block of lines;
    a scalar, an empty array and an empty object are one line; an array or
    an object with members is an opening line, its members shifted by two
    blanks, each but the last followed by a comma, and a closing line; a
    member of an object starts with its quoted key, a colon and a blank. *)







(** *** [JSON.parse] *)

Definition is_ws (c : ascii) : bool :=
  let n := nat_of_ascii c in
  Nat.eqb n 32 || Nat.eqb n 9 || Nat.eqb n 10 || Nat.eqb n 13.

Fixpoint skip_ws (s : string) : string :=
  match s with
  | String c rest => if is_ws c then skip_ws rest else s
  | EmptyString => s
  end.

Definition digit_value (c : ascii) : option nat :=
  let n := nat_of_ascii c in
  if (48 <=? n)%nat && (n <=? 57)%nat then Some (n - 48)%nat else None.

Definition hex_value (c : ascii) : option nat :=
  let n := nat_of_ascii c in
  if (48 <=? n)%nat && (n <=? 57)%nat then Some (n - 48)%nat
  else if (97 <=? n)%nat && (n <=? 102)%nat then Some (n - 87)%nat
  else if (65 <=? n)%nat && (n <=? 70)%nat then Some (n - 55)%nat
  else None.

(** The digits at the front of [s], read in base ten onto [acc]. *)
Fixpoint digits (acc : Z) (s : string) : Z * string :=
  match s with
  | String c rest =>
      match digit_value c with
      | Some d => digits (10 * acc + Z.of_nat d) rest
      | None => (acc, s)
      end
  | EmptyString => (acc, s)
  end.

(** A number without its sign: [0], or a non-zero digit followed by digits.
    A fraction or an exponent is outside the model. *)
Definition unsigned_number (s : string) : option (Z * string) :=
  match s with
  | String c rest =>
      match digit_value c with
      | Some O => Some (0%Z, rest)
      | Some d => Some (digits (Z.of_nat d) rest)
      | None => None
      end
  | EmptyString => None
  end.

Definition integral (r : Z * string) : option (Z * string) :=
  match snd r with
  | String c _ =>
      if Ascii.eqb c "." || Ascii.eqb c "e" || Ascii.eqb c "E" then None else Some r
  | EmptyString => Some r
  end.

Definition number (s : string) : option (Z * string) :=
  match s with
  | String "-" rest =>
      match unsigned_number rest with
      | Some (n, rest') => integral ((- n)%Z, rest')
      | None => None
      end
  | _ =>
      match unsigned_number s with
      | Some r => integral r
      | None => None
      end
  end.

(** The characters of a string literal after its opening quote, up to and
    including the closing one.  An escape [\uXXXX] above code 255 is
    outside the model. *)
Fixpoint string_body (s : string) : option (string * string) :=
  match s with
  | EmptyString => None
  | String c rest =>
      let n := nat_of_ascii c in
      if Nat.eqb n 34 then Some ("", rest)
      else if Nat.ltb n 32 then None
      else if Nat.eqb n 92 then
        match rest with
        | String e rest' =>
            let simple (ch : ascii) :=
              match string_body rest' with
              | Some (body, tail) => Some (String ch body, tail)
              | None => None
              end in
            match e with
            | "034"%char => simple "034"%char
            | "092"%char => simple "092"%char
            | "/"%char => simple "/"%char
            | "b"%char => simple "008"%char
            | "f"%char => simple "012"%char
            | "n"%char => simple "010"%char
            | "r"%char => simple "013"%char
            | "t"%char => simple "009"%char
            | "u"%char =>
                match rest' with
                | String h1 (String h2 (String h3 (String h4 rest''))) =>
                    match hex_value h1, hex_value h2, hex_value h3, hex_value h4 with
                    | Some O, Some O, Some a, Some b =>
                        match string_body rest'' with
                        | Some (body, tail) =>
                            Some (String (ascii_of_nat (16 * a + b)) body, tail)
                        | None => None
                        end
                    | _, _, _, _ => None
                    end
                | _ => None
                end
            | _ => None
            end
        | EmptyString => None
        end
      else
        match string_body rest with
        | Some (body, tail) => Some (String c body, tail)
        | None => None
        end
  end.

(** A property key that is an array index: the canonical decimal form of
    an integer below [2^32 - 1]. *)
Definition array_index (k : string) : option Z :=
  match unsigned_number k with
  | Some (n, EmptyString) => if (n <? 4294967295)%Z then Some n else None
  | _ => None
  end.

(** An index key goes before the first larger index key and before every
    other key. *)
Fixpoint insert_index (i : Z) (k : string) (v : Json) (props : list (string * Json))
  : list (string * Json) :=
  match props with
  | [] => [(k, v)]
  | (k', v') :: rest =>
      match array_index k' with
      | Some j => if (j <? i)%Z then (k', v') :: insert_index i k v rest
                  else (k, v) :: props
      | None => (k, v) :: props
      end
  end.

Fixpoint has_key (k : string) (props : list (string * Json)) : bool :=
  match props with
  | [] => false
  | (k', _) :: rest => String.eqb k k' || has_key k rest
  end.

Fixpoint replace (k : string) (v : Json) (props : list (string * Json))
  : list (string * Json) :=
  match props with
  | [] => []
  | (k', v') :: rest =>
      if String.eqb k k' then (k', v) :: rest else (k', v') :: replace k v rest
  end.

(** [CreateDataProperty]: a key already there keeps its place and takes the
    new value; a new index key is placed among the index keys, any other
    new key goes last. *)
Definition define_property (k : string) (v : Json) (props : list (string * Json))
  : list (string * Json) :=
  if has_key k props then replace k v props
  else match array_index k with
       | Some i => insert_index i k v props
       | None => (props ++ [(k, v)])%list
       end.

Definition literal (word : string) (v : Json) (s : string) : option (Json * string) :=
  if String.prefix word s
  then Some (v, substring (String.length word) (String.length s - String.length word) s)
  else None.

(** A value at the front of [s], after white space.  [fuel] bounds the
    number of values, elements and members read. *)
Fixpoint value (fuel : nat) (s : string) : option (Json * string) :=
  match fuel with
  | O => None
  | S fuel' =>
      match skip_ws s with
      | String "n" _ => literal "null" JNull (skip_ws s)
      | String "t" _ => literal "true" (JBool true) (skip_ws s)
      | String "f" _ => literal "false" (JBool false) (skip_ws s)
      | String "034" rest =>
          match string_body rest with
          | Some (str, tail) => Some (JString str, tail)
          | None => None
          end
      | String "[" rest =>
          match skip_ws rest with
          | String "]" tail => Some (JArray [], tail)
          | _ =>
              match elements fuel' rest with
              | Some (l, tail) => Some (JArray l, tail)
              | None => None
              end
          end
      | String "{" rest =>
          match skip_ws rest with
          | String "}" tail => Some (JObject [], tail)
          | _ =>
              match members fuel' [] rest with
              | Some (props, tail) => Some (JObject props, tail)
              | None => None
              end
          end
      | other =>
          match number other with
          | Some (n, tail) =>
              match number_token n with
              | Some text => Some (JNumber text, tail)
              | None => None
              end
          | None => None
          end
      end
  end

with elements (fuel : nat) (s : string) : option (list Json * string) :=
  match fuel with
  | O => None
  | S fuel' =>
      match value fuel' s with
      | Some (v, tail) =>
          match skip_ws tail with
          | String "," tail' =>
              match elements fuel' tail' with
              | Some (l, tail'') => Some (v :: l, tail'')
              | None => None
              end
          | String "]" tail' => Some ([v], tail')
          | _ => None
          end
      | None => None
      end
  end

with members (fuel : nat) (props : list (string * Json)) (s : string)
  : option (list (string * Json) * string) :=
  match fuel with
  | O => None
  | S fuel' =>
      match skip_ws s with
      | String "034" rest =>
          match string_body rest with
          | Some (k, tail) =>
              match skip_ws tail with
              | String ":" tail' =>
                  match value fuel' tail' with
                  | Some (v, tail'') =>
                      let props' := define_property k v props in
                      match skip_ws tail'' with
                      | String "," tail3 => members fuel' props' tail3
                      | String "}" tail3 => Some (props', tail3)
                      | _ => None
                      end
                  | None => None
                  end
              | _ => None
              end
          | None => None
          end
      | _ => None
      end
  end.

(** [JSON.parse(text)] on the documents of the model (integer numbers up
    to [2^53] in absolute value, characters up to code 255); [None] is the
    [SyntaxError]. *)
Definition parse (text : string) : option Json :=
  match value (2 * String.length text + 2) text with
  | Some (v, tail) =>
      match skip_ws tail with
      | EmptyString => Some v
      | _ => None
      end
  | None => None
  end.

End JSON.

(** ** The state cells of the component *)

Module Severity.
Inductive t : Type := success | error.
End Severity.

(** The nine [useState] cells, under the names the component gives them. *)
Record ViewState : Type := mkViewState {
  tabValue : nat;
  configNames : list string;
  selectedConfigName : option string;
  configContent : string;
  loading : bool;
  snackbarOpen : bool;
  snackbarMessage : string;
  snackbarSeverity : Severity.t;
  isEditing : bool
}.

(** The initial values given to [useState]. *)
Definition initialState : ViewState :=
  {| tabValue := 0;
     configNames := [];
     selectedConfigName := None;
     configContent := "";
     loading := false;
     snackbarOpen := false;
     snackbarMessage := "";
     snackbarSeverity := Severity.success;
     isEditing := false |}.

(** A call of one of the nine state setters. *)
Inductive Update : Type :=
| setTabValue (newValue : nat)
| setConfigNames (names : list string)
| setSelectedConfigName (name : option string)
| setConfigContent (content : string)
| setLoading (flag : bool)
| setSnackbarOpen (flag : bool)
| setSnackbarMessage (message : string)
| setSnackbarSeverity (severity : Severity.t)
| setIsEditing (flag : bool).

Definition apply_update (u : Update) (s : ViewState) : ViewState :=
  match u with
  | setTabValue v =>
      mkViewState v (configNames s) (selectedConfigName s) (configContent s) (loading s)
        (snackbarOpen s) (snackbarMessage s) (snackbarSeverity s) (isEditing s)
  | setConfigNames v =>
      mkViewState (tabValue s) v (selectedConfigName s) (configContent s) (loading s)
        (snackbarOpen s) (snackbarMessage s) (snackbarSeverity s) (isEditing s)
  | setSelectedConfigName v =>
      mkViewState (tabValue s) (configNames s) v (configContent s) (loading s)
        (snackbarOpen s) (snackbarMessage s) (snackbarSeverity s) (isEditing s)
  | setConfigContent v =>
      mkViewState (tabValue s) (configNames s) (selectedConfigName s) v (loading s)
        (snackbarOpen s) (snackbarMessage s) (snackbarSeverity s) (isEditing s)
  | setLoading v =>
      mkViewState (tabValue s) (configNames s) (selectedConfigName s) (configContent s) v
        (snackbarOpen s) (snackbarMessage s) (snackbarSeverity s) (isEditing s)
  | setSnackbarOpen v =>
      mkViewState (tabValue s) (configNames s) (selectedConfigName s) (configContent s) (loading s)
        v (snackbarMessage s) (snackbarSeverity s) (isEditing s)
  | setSnackbarMessage v =>
      mkViewState (tabValue s) (configNames s) (selectedConfigName s) (configContent s) (loading s)
        (snackbarOpen s) v (snackbarSeverity s) (isEditing s)
  | setSnackbarSeverity v =>
      mkViewState (tabValue s) (configNames s) (selectedConfigName s) (configContent s) (loading s)
        (snackbarOpen s) (snackbarMessage s) v (isEditing s)
  | setIsEditing v =>
      mkViewState (tabValue s) (configNames s) (selectedConfigName s) (configContent s) (loading s)
        (snackbarOpen s) (snackbarMessage s) (snackbarSeverity s) v
  end.

(** ** Effects, exceptions and the handler monad *)

Inductive Request : Type :=
| GET (url : string)
| POST (url : string) (body : Json).

(** What a [throw] inside a handler carries: the [SyntaxError] of
    [JSON.parse], or the rejection of an awaited request. *)
Inductive Thrown : Type :=
| SyntaxError
| RequestFailed.

(** What a handler does besides returning, in the order it does it. *)
Inductive Effect : Type :=
| Set_ (u : Update)
| Http (r : Request)
| ConsoleError (message : string) (e : Thrown)
| Alert (message : string).

Inductive Completion (A : Type) : Type :=
| Normal (a : A)
| Throw (e : Thrown).
Arguments Normal {A} a.
Arguments Throw {A} e.

Record Run (A : Type) : Type := mkRun {
  completion : Completion A;
  final : ViewState;
  trace : list Effect
}.
Arguments mkRun {A} _ _ _.
Arguments completion {A} _.
Arguments final {A} _.
Arguments trace {A} _.

Definition M (A : Type) : Type := ViewState -> Run A.

Definition ret {A} (a : A) : M A := fun s => mkRun (Normal a) s [].

Definition throw {A} (e : Thrown) : M A := fun s => mkRun (Throw e) s [].

Definition bind {A B} (m : M A) (k : A -> M B) : M B :=
  fun s =>
    match m s with
    | mkRun (Normal a) s1 t1 =>
        match k a s1 with
        | mkRun c s2 t2 => mkRun c s2 (t1 ++ t2)
        end
    | mkRun (Throw e) s1 t1 => mkRun (Throw e) s1 t1
    end.

Declare Scope js_scope.
Delimit Scope js_scope with js.
Notation "x <- m ;; k" := (bind m (fun x => k))
  (at level 61, m at next level, right associativity) : js_scope.
Notation "m ;; k" := (bind m (fun _ => k))
  (at level 61, right associativity) : js_scope.
Local Open Scope js_scope.

(** A setter call: the cell changes and the call is recorded. *)
Definition set (u : Update) : M unit :=
  fun s => mkRun (Normal tt) (apply_update u s) [Set_ u].

Definition perform (e : Effect) : M unit :=
  fun s => mkRun (Normal tt) s [e].

(** [try { body } catch (error) { handler } finally { finalizer }]: the
    handler runs when the body throws, the finalizer runs on every path, and
    a throw of the finalizer replaces the completion reached before it. *)
Definition try_catch_finally {A} (body : M A) (handler : Thrown -> M A)
    (finalizer : M unit) : M A :=
  fun s =>
    let guarded :=
      match body s with
      | mkRun (Normal a) s1 t1 => mkRun (Normal a) s1 t1
      | mkRun (Throw e) s1 t1 =>
          match handler e s1 with
          | mkRun c s2 t2 => mkRun c s2 (t1 ++ t2)
          end
      end in
    match guarded with
    | mkRun c s2 t2 =>
        match finalizer s2 with
        | mkRun (Normal _) s3 t3 => mkRun c s3 (t2 ++ t3)
        | mkRun (Throw e) s3 t3 => mkRun (Throw e) s3 (t2 ++ t3)
        end
    end.

(** Calling an [async] function without awaiting it: a throw becomes the
    rejection of a promise nobody looks at. *)
Definition detached (m : M unit) : M unit :=
  fun s =>
    match m s with
    | mkRun _ s1 t1 => mkRun (Normal tt) s1 t1
    end.

(** The requests among the effects of a trace. *)
Fixpoint requests (t : list Effect) : list Request :=
  match t with
  | [] => []
  | Http r :: rest => r :: requests rest
  | _ :: rest => requests rest
  end.

(** The setter calls among the effects of a trace. *)
Fixpoint updates (t : list Effect) : list Update :=
  match t with
  | [] => []
  | Set_ u :: rest => u :: updates rest
  | _ :: rest => updates rest
  end.

(** ** The HTTP client *)

(** Modelled from the spec: [apiClient] of [services/api], which the page
    imports.  A request is answered with a status code and data, with a
    body that the client cannot parse, or not at all; the promise is
    fulfilled with the response on a 2xx status and rejected otherwise (the
    failures the spec names: network error, parse error, non-2xx status).
    The response data is untyped in the page; each call site is given the
    type at which the page uses it. *)
Inductive Reply (A : Type) : Type :=
| Status (code : nat) (data : A)
| NetworkError
| Unparsable.
Arguments Status {A} code data.
Arguments NetworkError {A}.
Arguments Unparsable {A}.

Record ApiClient : Type := mkApiClient {
  get_names : string -> Reply (list string);
  get_content : string -> Reply Json;
  post : string -> Json -> Reply unit
}.

Definition is_2xx (code : nat) : bool := (200 <=? code)%nat && (code <? 300)%nat.

(** The response data the promise is fulfilled with, [None] when it is
    rejected. *)
Definition fulfilled {A} (reply : Reply A) : option A :=
  match reply with
  | Status code data => if is_2xx code then Some data else None
  | NetworkError => None
  | Unparsable => None
  end.

(** The three ways a request fails: no reply, a body that cannot be parsed,
    a status outside 2xx. *)
Definition request_fails {A} (reply : Reply A) : Prop :=
  reply = NetworkError
  \/ reply = Unparsable
  \/ exists code data, reply = Status code data /\ (code < 200 \/ 300 <= code).

(** [await]: the request goes out, then the reply decides between the
    response data and a throw. *)
Definition await {A} (r : Request) (reply : Reply A) : M A :=
  perform (Http r) ;;
  match fulfilled reply with
  | Some data => ret data
  | None => throw RequestFailed
  end.

(** ** The page *)

Record ResourceType : Type := mkResourceType {
  key : string;
  label : string
}.

Definition resourceTypes : list ResourceType :=
  [ mkResourceType "ClassPlans" "课表";
    mkResourceType "TimeLayouts" "时间布局";
    mkResourceType "SubjectsSource" "科目";
    mkResourceType "DefaultSettingsSource" "默认设置";
    mkResourceType "PolicySource" "策略" ].

(** [resourceTypes[tabValue].key]; outside the table the property access
    throws, which is [None] here. *)
Definition currentResourceType (tabValue : nat) : option string :=
  option_map key (nth_error resourceTypes tabValue).

(** Truthiness of a [string | null]: [null] and the empty string are falsy. *)
Definition truthy_name (name : option string) : bool :=
  match name with
  | Some s => JsString.truthy s
  | None => false
  end.

(** A [string | null] inside a template literal. *)
Definition template (name : option string) : string :=
  match name with
  | Some s => s
  | None => "null"
  end.

(** The three template literals the requests are sent to. *)
Definition panel_url (resourceType : string) : string :=
  "/api/v1/panel/" ++ resourceType.

Definition client_url (resourceType name : string) : string :=
  "/api/v1/client/" ++ JsString.slice_0_m1 resourceType ++ "?name=" ++ name.

Definition resources_url (currentResourceType : string) (selectedConfigName : option string)
  : string :=
  "/api/resources/" ++ currentResourceType ++ "/" ++ template selectedConfigName.

(** The notification as the page shows it: nothing while the snackbar is
    closed, its message and severity while it is open. *)
Definition notification (s : ViewState) : option (string * Severity.t) :=
  if snackbarOpen s then Some (snackbarMessage s, snackbarSeverity s) else None.

Section Handlers.

(** [JSON.parse]: [None] stands for the [SyntaxError] it throws. *)
Variable JSON_parse : string -> option Json.

Variable apiClient : ApiClient.

Definition parse (content : string) : M Json :=
  match JSON_parse content with
  | Some v => ret v
  | None => throw SyntaxError
  end.

Definition handleSnackbarOpen (message : string) (severity : Severity.t) : M unit :=
  set (setSnackbarMessage message) ;;
  set (setSnackbarSeverity severity) ;;
  set (setSnackbarOpen true).

Definition fetchConfigNames (resourceType : string) : M unit :=
  set (setLoading true) ;;
  try_catch_finally
    (let url := panel_url resourceType in
     data <- await (GET url) (get_names apiClient url) ;;
     set (setConfigNames data) ;;
     if (0 <? List.length data)%nat
     then set (setSelectedConfigName (nth_error data 0))
     else set (setSelectedConfigName None))
    (fun error =>
       perform (ConsoleError "Failed to fetch config names:" error) ;;
       set (setConfigNames []) ;;
       set (setSelectedConfigName None) ;;
       handleSnackbarOpen "获取配置文件列表失败" Severity.error)
    (set (setLoading false)).

Definition fetchConfigContent (resourceType : string) (name : string) : M unit :=
  set (setLoading true) ;;
  try_catch_finally
    (let url := client_url resourceType name in
     data <- await (GET url) (get_content apiClient url) ;;
     set (setConfigContent (JSON.stringify data 2)))
    (fun error =>
       perform (ConsoleError "Failed to fetch config content:" error) ;;
       set (setConfigContent "") ;;
       handleSnackbarOpen "获取配置文件内容失败" Severity.error)
    (set (setLoading false)).

Definition handleTabChange (newValue : nat) : M unit :=
  set (setTabValue newValue) ;;
  set (setSelectedConfigName None).

Definition handleConfigNameClick (name : string) : M unit :=
  set (setSelectedConfigName (Some name)) ;;
  set (setIsEditing false).

(** [currentResourceType] and [selectedConfigName] are the values of the
    render the handler was created in. *)
Definition handleSaveConfig (currentResourceType : string)
    (selectedConfigName : option string) (content : string) : M unit :=
  if negb (truthy_name selectedConfigName) then ret tt
  else
    set (setLoading true) ;;
    try_catch_finally
      (let url := resources_url currentResourceType selectedConfigName in
       parsed <- parse content ;;
       let body := JObject [("content", parsed)] in
       _ <- await (POST url body) (post apiClient url body) ;;
       handleSnackbarOpen "配置文件保存成功" Severity.success ;;
       set (setIsEditing false))
      (fun error =>
         perform (ConsoleError "Failed to save config:" error) ;;
         handleSnackbarOpen "配置文件保存失败" Severity.error)
      (set (setLoading false)).

Definition handleSnackbarClose (reason : option string) : M unit :=
  if match reason with Some r => String.eqb r "clickaway" | None => false end
  then ret tt
  else set (setSnackbarOpen false).

Definition handleAddConfig : M unit :=
  perform (Alert "新增配置功能待实现").

Definition handleDeleteConfig (selectedConfigName : option string) : M unit :=
  if truthy_name selectedConfigName
  then perform (Alert ("删除配置 " ++ template selectedConfigName ++ " 功能待实现"))
  else perform (Alert "请先选择要删除的配置文件").

End Handlers.

(** ** The component: renders, effects and events *)

(** The state cells together with what React remembers of the two
    [useEffect] hooks: the dependency arrays of their last run, [None]
    before the first render. *)
Record Hooks : Type := mkHooks {
  cells : ViewState;
  names_deps : option (nat * string);
  content_deps : option (option string * string)
}.

(** [Object.is] on a [string | null]. *)
Definition same_name (a b : option string) : bool :=
  match a, b with
  | Some x, Some y => String.eqb x y
  | None, None => true
  | _, _ => false
  end.

(** The first effect, [[tabValue, currentResourceType]], has to run. *)
Definition names_due (h : Hooks) (resourceType : string) : bool :=
  match names_deps h with
  | None => true
  | Some (t, r) => negb (Nat.eqb t (tabValue (cells h)) && String.eqb r resourceType)
  end.

(** The second effect, [[selectedConfigName, currentResourceType]], has to
    run. *)
Definition content_due (h : Hooks) (resourceType : string) : bool :=
  match content_deps h with
  | None => true
  | Some (n, r) =>
      negb (same_name n (selectedConfigName (cells h)) && String.eqb r resourceType)
  end.

(** What the user and the child components can do to the page. *)
Inductive Event : Type :=
| TabChange (newValue : nat)
| ConfigNameClick (name : string)
| EditorChange (value : string)
| EditorSave (content : string)
| EditorSetIsEditing (flag : bool)
| SnackbarClose (reason : option string)
| AddClick
| DeleteClick.

(** The props the page gives to the notification. *)
Record SnackbarProps : Type := mkSnackbarProps {
  open : bool;
  autoHideDuration : nat;
  onClose : option string -> M unit
}.

Definition snackbar (s : ViewState) : SnackbarProps :=
  {| open := snackbarOpen s;
     autoHideDuration := 3000;
     onClose := handleSnackbarClose |}.

(** Modelled from the spec: the timer of the notification component of the
    UI library.  A notification that has been open for [elapsed] time units
    asks to be closed, with reason [timeout], once [elapsed] reaches its
    [autoHideDuration]; before that, and when it is not open, it asks for
    nothing. *)
Definition snackbar_timer (p : SnackbarProps) (elapsed : nat) : M unit :=
  if open p && (autoHideDuration p <=? elapsed)%nat
  then onClose p (Some "timeout")
  else ret tt.

Section Component.

Variable JSON_parse : string -> option Json.
Variable apiClient : ApiClient.

(** The body of the second effect, with the values of its render. *)
Definition content_effect (resourceType : string) (selectedConfigName : option string)
  : M unit :=
  match selectedConfigName with
  | Some name =>
      if JsString.truthy name
      then detached (fetchConfigContent apiClient resourceType name)
      else set (setConfigContent "")
  | None => set (setConfigContent "")
  end.

(** One render and the effects that follow it, in the order the hooks are
    declared.  [None]: the render throws. *)
Definition render_pass (h : Hooks) : option (Hooks * list Effect) :=
  let s := cells h in
  match currentResourceType (tabValue s) with
  | None => None
  | Some resourceType =>
      let first :=
        if names_due h resourceType
        then detached (fetchConfigNames apiClient resourceType)
        else ret tt in
      let second :=
        if content_due h resourceType
        then content_effect resourceType (selectedConfigName s)
        else ret tt in
      let r := (first ;; second) s in
      Some (mkHooks (final r)
              (Some (tabValue s, resourceType))
              (Some (selectedConfigName s, resourceType)),
            trace r)
  end.

(** The render after an event and the render its effects ask for. *)
Definition commit (h : Hooks) : option (Hooks * list Effect) :=
  match render_pass h with
  | None => None
  | Some (h1, t1) =>
      match render_pass h1 with
      | None => None
      | Some (h2, t2) => Some (h2, (t1 ++ t2)%list)
      end
  end.

(** Mounting the component. *)
Definition mount : option (Hooks * list Effect) :=
  commit (mkHooks initialState None None).

(** The handler an event reaches, closed over the values of the current
    render. *)
Definition handler (resourceType : string) (s : ViewState) (ev : Event) : M unit :=
  match ev with
  | TabChange newValue => handleTabChange newValue
  | ConfigNameClick name => handleConfigNameClick name
  | EditorChange value => set (setConfigContent value)
  | EditorSave content =>
      detached (handleSaveConfig JSON_parse apiClient resourceType
                  (selectedConfigName s) content)
  | EditorSetIsEditing flag => set (setIsEditing flag)
  | SnackbarClose reason => handleSnackbarClose reason
  | AddClick => handleAddConfig
  | DeleteClick => handleDeleteConfig (selectedConfigName s)
  end.

(** An event: its handler, then the renders that follow. *)
Definition dispatch (h : Hooks) (ev : Event) : option (Hooks * list Effect) :=
  match currentResourceType (tabValue (cells h)) with
  | None => None
  | Some resourceType =>
      let r := handler resourceType (cells h) ev (cells h) in
      match commit (mkHooks (final r) (names_deps h) (content_deps h)) with
      | None => None
      | Some (h', t) => Some (h', (trace r ++ t)%list)
      end
  end.

(** No effect is waiting: a further render changes nothing. *)
Definition settled (h : Hooks) : Prop := render_pass h = Some (h, []).

End Component.

(** ** Statements about the page *)

(** The cells a failed save must not touch. *)
Definition edited (s : ViewState)
  : nat * list string * option string * string * bool :=
  (tabValue s, configNames s, selectedConfigName s, configContent s, isEditing s).

(** The setter calls of the [catch] and [finally] blocks of
    [handleSaveConfig]. *)
Definition save_failure_updates : list Update :=
  [ setSnackbarMessage "配置文件保存失败";
    setSnackbarSeverity Severity.error;
    setSnackbarOpen true;
    setLoading false ].

(** A computation brackets the loading flag: its first effect raises it, its
    last effect lowers it, it leaves it lowered and it does not throw. *)
Definition brackets_loading (m : M unit) : Prop :=
  forall s,
    (exists rest, trace (m s) = Set_ (setLoading true) :: rest)
    /\ (exists front, trace (m s) = (front ++ [Set_ (setLoading false)])%list)
    /\ loading (final (m s)) = false
    /\ completion (m s) = Normal tt.

Section Statements.

Variable JSON_parse : string -> option Json.
Variable apiClient : ApiClient.

(** Saving [content], which parses to [v], while [X] is selected in
    [category]: one POST of [{content: v}] and the two outcomes the reply
    decides between. *)
Definition save_posts (h : Hooks) (category X content : string) (v : Json) : Prop :=
  exists h' t,
    dispatch JSON_parse apiClient h (EditorSave content) = Some (h', t)
    /\ let url := "/api/resources/" ++ category ++ "/" ++ X in
       let body := JObject [("content", v)] in
       requests t = [POST url body]
       /\ match fulfilled (post apiClient url body) with
          | Some _ =>
              isEditing (cells h') = false
              /\ notification (cells h') = Some ("配置文件保存成功", Severity.success)
          | None =>
              notification (cells h') = Some ("配置文件保存失败", Severity.error)
              /\ isEditing (cells h') = isEditing (cells h)
              /\ updates t = setLoading true :: save_failure_updates
          end.

(** Saving a [content] that does not parse: no request, and the failure path
    of a rejected POST. *)
Definition save_rejects (h : Hooks) (content : string) : Prop :=
  exists h' t,
    dispatch JSON_parse apiClient h (EditorSave content) = Some (h', t)
    /\ requests t = []
    /\ notification (cells h') = Some ("配置文件保存失败", Severity.error)
    /\ isEditing (cells h') = isEditing (cells h)
    /\ updates t = setLoading true :: save_failure_updates.

(** The save of [content] fails: the text does not parse, or the POST of its
    value is rejected. *)
Definition save_fails (category X content : string) : Prop :=
  match JSON_parse content with
  | None => True
  | Some v =>
      fulfilled (post apiClient ("/api/resources/" ++ category ++ "/" ++ X)
                   (JObject [("content", v)]))
      = None
  end.

(** What the spec says of a name list [L] loaded for [category]: the list is
    taken as it is, a non-empty list selects its first name and fetches its
    content, an empty list selects nothing, clears the content and fetches
    nothing. *)
Definition names_loaded_spec (category : string) (L : list string)
    (result : option (Hooks * list Effect)) : Prop :=
  exists h' t,
    result = Some (h', t)
    /\ configNames (cells h') = L
    /\ match L with
       | first :: _ =>
           selectedConfigName (cells h') = Some first
           /\ In (GET ("/api/v1/client/" ++ JsString.slice_0_m1 category
                         ++ "?name=" ++ first))
                 (requests t)
       | [] =>
           selectedConfigName (cells h') = None
           /\ configContent (cells h') = ""
           /\ requests t = [GET ("/api/v1/panel/" ++ category)]
       end.

(** What the page does with it: an empty first name is selected too, but
    counts as no selection for the content effect. *)
Definition names_loaded (category : string) (L : list string)
    (result : option (Hooks * list Effect)) : Prop :=
  exists h' t,
    result = Some (h', t)
    /\ configNames (cells h') = L
    /\ match L with
       | first :: _ =>
           selectedConfigName (cells h') = Some first
           /\ if JsString.truthy first
              then requests t
                   = [ GET ("/api/v1/panel/" ++ category);
                       GET ("/api/v1/client/" ++ JsString.slice_0_m1 category
                              ++ "?name=" ++ first) ]
              else configContent (cells h') = ""
                   /\ requests t = [GET ("/api/v1/panel/" ++ category)]
       | [] =>
           selectedConfigName (cells h') = None
           /\ configContent (cells h') = ""
           /\ requests t = [GET ("/api/v1/panel/" ++ category)]
       end.

(** The occasions on which the name list of [category] is loaded: when the
    component mounts, and when another tab is selected on a settled page. *)
Inductive name_load (category : string) : option (Hooks * list Effect) -> Prop :=
| load_on_mount :
    currentResourceType 0 = Some category ->
    name_load category (mount apiClient)
| load_on_tab_change (h : Hooks) (i : nat) :
    settled apiClient h ->
    i <> tabValue (cells h) ->
    currentResourceType i = Some category ->
    name_load category (dispatch JSON_parse apiClient h (TabChange i)).

(** The pages the component goes through: the mounted page, and the page
    after each event. *)
Inductive reachable : Hooks -> Prop :=
| reach_mount (h : Hooks) (t : list Effect) :
    mount apiClient = Some (h, t) ->
    reachable h
| reach_dispatch (h h' : Hooks) (ev : Event) (t : list Effect) :
    reachable h ->
    dispatch JSON_parse apiClient h ev = Some (h', t) ->
    reachable h'.

End Statements.

(** ** Sample inputs *)

(** The text [{"a":1}]. *)
Definition doc_a1 : string :=
  "{" ++ JsString.double_quote ++ "a" ++ JsString.double_quote ++ ":1}".

Definition value_a1 : Json := JObject [("a", JNumber "1")].

(** The text of [value_a1] as [JSON.stringify] prints it with indent 2. *)
Definition pretty_a1 : string :=
  "{" ++ JsString.newline ++ "  " ++ JsString.double_quote ++ "a" ++ JsString.double_quote
      ++ ": 1" ++ JsString.newline ++ "}".

(** A backend that lists [names] everywhere, serves [value_a1] as every
    content and answers every save with status [code]. *)
Definition backend (names : list string) (code : nat) : ApiClient :=
  {| get_names := fun _ => Status 200 names;
     get_content := fun _ => Status 200 value_a1;
     post := fun _ _ => Status code tt |}.

(** A backend whose name list comes back with a body that cannot be
    parsed. *)
Definition garbled_backend : ApiClient :=
  {| get_names := fun _ => Unparsable;
     get_content := fun _ => Status 200 value_a1;
     post := fun _ _ => Status 200 tt |}.

(** A backend whose name list fails with status 500. *)
Definition broken_backend : ApiClient :=
  {| get_names := fun _ => Status 500 [];
     get_content := fun _ => NetworkError;
     post := fun _ _ => NetworkError |}.

(** The page on its first tab with the names [names] listed, [name] selected
    and [content] in the editor. *)
Definition page_with (names : list string) (name : option string) (content : string)
  : Hooks :=
  {| cells :=
       {| tabValue := 0;
          configNames := names;
          selectedConfigName := name;
          configContent := content;
          loading := false;
          snackbarOpen := false;
          snackbarMessage := "";
          snackbarSeverity := Severity.success;
          isEditing := true |};
     names_deps := Some (0, "ClassPlans");
     content_deps := Some (name, "ClassPlans") |}.

(** ** What the page renders *)

(** The parts of the rendered tree the handlers are reached through: the
    tabs, the name list or the spinner in its place, the two buttons, the
    editor or the spinner in its place, and the notification. *)
Record View : Type := mkView {
  tab_labels : list string;
  active_tab : nat;
  name_items : option (list (string * bool));
  delete_disabled : bool;
  editor : option (string * bool);
  snackbar_props : SnackbarProps;
  alert_severity : Severity.t;
  alert_text : string
}.

(** The [return] of the component.  [None]: [resourceTypes[tabValue].key]
    throws before anything is rendered. *)
Definition render (s : ViewState) : option View :=
  match currentResourceType (tabValue s) with
  | None => None
  | Some _ =>
      Some {| tab_labels := map label resourceTypes;
              active_tab := tabValue s;
              name_items :=
                if loading s && Nat.eqb (tabValue s) (tabValue s)
                then None
                else Some (map (fun name => (name, same_name (selectedConfigName s) (Some name)))
                             (configNames s));
              delete_disabled := negb (truthy_name (selectedConfigName s));
              editor :=
                if loading s && truthy_name (selectedConfigName s)
                then None
                else Some (configContent s, isEditing s);
              snackbar_props := snackbar s;
              alert_severity := snackbarSeverity s;
              alert_text := snackbarMessage s |}
  end.

(** The events a rendered tree can send: a tab that exists, a name that is
    listed, the editor's callbacks while the editor is there, the delete
    button while it is enabled. *)
Definition offered (v : View) (ev : Event) : bool :=
  match ev with
  | TabChange newValue => (newValue <? List.length (tab_labels v))%nat
  | ConfigNameClick name =>
      match name_items v with
      | Some items => existsb (fun item => String.eqb (fst item) name) items
      | None => false
      end
  | EditorChange _ | EditorSave _ | EditorSetIsEditing _ =>
      match editor v with
      | Some _ => true
      | None => false
      end
  | SnackbarClose _ => true
  | AddClick => true
  | DeleteClick => negb (delete_disabled v)
  end.

(** A computation keeps a property of the cells. *)
Definition preserves (P : ViewState -> Prop) (m : M unit) : Prop :=
  forall s, P s -> P (final (m s)).

(** The texts of the stub buttons. *)
Definition add_stub_text : string := "新增配置功能待实现".

Definition delete_stub_text (name : string) : string :=
  "删除配置 " ++ name ++ " 功能待实现".

Section UserInterface.

Variable JSON_parse : string -> option Json.
Variable apiClient : ApiClient.

(** The pages a user can bring about: the mounted page, and the page after
    an event that the rendered tree offers. *)
Inductive ui_reachable : Hooks -> Prop :=
| ui_mount (h : Hooks) (t : list Effect) :
    mount apiClient = Some (h, t) ->
    ui_reachable h
| ui_event (h h' : Hooks) (v : View) (ev : Event) (t : list Effect) :
    ui_reachable h ->
    render (cells h) = Some v ->
    offered v ev = true ->
    dispatch JSON_parse apiClient h ev = Some (h', t) ->
    ui_reachable h'.

End UserInterface.

(** A page with edits under way, an open notification, [X] selected among
    [X] and [Y], on the first tab. *)
Definition busy_page : Hooks :=
  {| cells :=
       {| tabValue := 0;
          configNames := ["X"; "Y"];
          selectedConfigName := Some "X";
          configContent := "edited";
          loading := false;
          snackbarOpen := true;
          snackbarMessage := "配置文件保存失败";
          snackbarSeverity := Severity.error;
          isEditing := true |};
     names_deps := Some (0, "ClassPlans");
     content_deps := Some (Some "X", "ClassPlans") |}.

(** The page right after mounting against [backend ["X"; "Y"] 200]. *)
Definition mounted_page : Hooks :=
  {| cells :=
       {| tabValue := 0;
          configNames := ["X"; "Y"];
          selectedConfigName := Some "X";
          configContent := pretty_a1;
          loading := false;
          snackbarOpen := false;
          snackbarMessage := "";
          snackbarSeverity := Severity.success;
          isEditing := false |};
     names_deps := Some (0, "ClassPlans");
     content_deps := Some (Some "X", "ClassPlans") |}.

(** A page whose loading flag is up with nothing listed or selected yet. *)
Definition loading_page : Hooks :=
  {| cells :=
       {| tabValue := 0;
          configNames := [];
          selectedConfigName := None;
          configContent := "";
          loading := true;
          snackbarOpen := false;
          snackbarMessage := "";
          snackbarSeverity := Severity.success;
          isEditing := false |};
     names_deps := Some (0, "ClassPlans");
     content_deps := Some (None, "ClassPlans") |}.

(** ** Proof automation *)

(** Unfolding a handler down to the monad. *)
Ltac run_handler :=
  unfold handleSaveConfig, fetchConfigNames, fetchConfigContent, try_catch_finally,
    bind, await, perform, set, ret, throw, parse, handleSnackbarOpen.

(** * Properties *)

(** ** The monad *)

(** Whatever the body and the [catch] block do, a [finally] block that
    lowers the loading flag leaves it lowered, and it is the last effect. *)
Lemma finally_releases_loading {A} (body : M A) (handler : Thrown -> M A) (s : ViewState) :
  loading (final (try_catch_finally body handler (set (setLoading false)) s)) = false
  /\ exists front,
       trace (try_catch_finally body handler (set (setLoading false)) s)
       = (front ++ [Set_ (setLoading false)])%list.
Proof.
  unfold try_catch_finally, set.
  destruct (body s) as [[a|e] s1 t1].
  - split; [reflexivity | eexists; reflexivity].
  - destruct (handler e s1) as [c s2 t2].
    split; [reflexivity | eexists; reflexivity].
Qed.

Lemma detached_run (m : M unit) (s : ViewState) :
  final (detached m s) = final (m s) /\ trace (detached m s) = trace (m s).
Proof.
  unfold detached. destruct (m s). split; reflexivity.
Qed.

Lemma requests_app (t1 t2 : list Effect) :
  requests (t1 ++ t2) = (requests t1 ++ requests t2)%list.
Proof.
  induction t1 as [|e t1 IH]; simpl; [reflexivity|].
  destruct e; simpl; rewrite IH; reflexivity.
Qed.

(** ** [handleSaveConfig], case by case *)

Section SaveCases.

Variable JSON_parse : string -> option Json.
Variable apiClient : ApiClient.
Variable category : string.
Variable name : option string.
Variable content : string.

Lemma save_falsy (s : ViewState) :
  truthy_name name = false ->
  handleSaveConfig JSON_parse apiClient category name content s = mkRun (Normal tt) s [].
Proof.
  intros Hn. unfold handleSaveConfig. rewrite Hn. reflexivity.
Qed.

Lemma save_fulfilled (s : ViewState) (v : Json) (u : unit) :
  truthy_name name = true ->
  JSON_parse content = Some v ->
  fulfilled (post apiClient (resources_url category name) (JObject [("content", v)]))
  = Some u ->
  handleSaveConfig JSON_parse apiClient category name content s
  = mkRun (Normal tt)
      (mkViewState (tabValue s) (configNames s) (selectedConfigName s) (configContent s)
         false true "配置文件保存成功" Severity.success false)
      [ Set_ (setLoading true);
        Http (POST (resources_url category name) (JObject [("content", v)]));
        Set_ (setSnackbarMessage "配置文件保存成功");
        Set_ (setSnackbarSeverity Severity.success);
        Set_ (setSnackbarOpen true);
        Set_ (setIsEditing false);
        Set_ (setLoading false) ].
Proof.
  intros Hn Hp Hr. run_handler. rewrite Hn. simpl. rewrite Hp. simpl.
  rewrite Hr. reflexivity.
Qed.

Lemma save_rejected (s : ViewState) (v : Json) :
  truthy_name name = true ->
  JSON_parse content = Some v ->
  fulfilled (post apiClient (resources_url category name) (JObject [("content", v)]))
  = None ->
  handleSaveConfig JSON_parse apiClient category name content s
  = mkRun (Normal tt)
      (mkViewState (tabValue s) (configNames s) (selectedConfigName s) (configContent s)
         false true "配置文件保存失败" Severity.error (isEditing s))
      [ Set_ (setLoading true);
        Http (POST (resources_url category name) (JObject [("content", v)]));
        ConsoleError "Failed to save config:" RequestFailed;
        Set_ (setSnackbarMessage "配置文件保存失败");
        Set_ (setSnackbarSeverity Severity.error);
        Set_ (setSnackbarOpen true);
        Set_ (setLoading false) ].
Proof.
  intros Hn Hp Hr. run_handler. rewrite Hn. simpl. rewrite Hp. simpl.
  rewrite Hr. reflexivity.
Qed.

Lemma save_unparsable (s : ViewState) :
  truthy_name name = true ->
  JSON_parse content = None ->
  handleSaveConfig JSON_parse apiClient category name content s
  = mkRun (Normal tt)
      (mkViewState (tabValue s) (configNames s) (selectedConfigName s) (configContent s)
         false true "配置文件保存失败" Severity.error (isEditing s))
      [ Set_ (setLoading true);
        ConsoleError "Failed to save config:" SyntaxError;
        Set_ (setSnackbarMessage "配置文件保存失败");
        Set_ (setSnackbarSeverity Severity.error);
        Set_ (setSnackbarOpen true);
        Set_ (setLoading false) ].
Proof.
  intros Hn Hp. run_handler. rewrite Hn. simpl. rewrite Hp. reflexivity.
Qed.

(** A save never changes the tab or the selection. *)
Lemma save_keeps_deps (s : ViewState) :
  tabValue (final (handleSaveConfig JSON_parse apiClient category name content s)) = tabValue s
  /\ selectedConfigName (final (handleSaveConfig JSON_parse apiClient category name content s))
     = selectedConfigName s.
Proof.
  destruct (truthy_name name) eqn:Hn.
  - destruct (JSON_parse content) as [v|] eqn:Hp.
    + destruct (fulfilled (post apiClient (resources_url category name)
                             (JObject [("content", v)]))) as [u|] eqn:Hr.
      * rewrite (save_fulfilled s v u Hn Hp Hr). split; reflexivity.
      * rewrite (save_rejected s v Hn Hp Hr). split; reflexivity.
    + rewrite (save_unparsable s Hn Hp). split; reflexivity.
  - rewrite (save_falsy s Hn). split; reflexivity.
Qed.

End SaveCases.

(** ** Renders *)

Lemma same_name_refl (a : option string) : same_name a a = true.
Proof.
  destruct a as [x|]; simpl; [apply String.eqb_refl | reflexivity].
Qed.

(** The five keys are pairwise different. *)
Lemma currentResourceType_inj (i j : nat) (r : string) :
  currentResourceType i = Some r -> currentResourceType j = Some r -> i = j.
Proof.
  unfold currentResourceType.
  do 5 (destruct i as [|i]; [ do 5 (destruct j as [|j]; [simpl; congruence|]);
                              destruct j; simpl; congruence | ]).
  destruct i; simpl; discriminate.
Qed.

Lemma currentResourceType_defined (i : nat) :
  i < 5 -> exists r, currentResourceType i = Some r.
Proof.
  intros Hi. unfold currentResourceType.
  do 5 (destruct i as [|i]; [simpl; eexists; reflexivity|]). lia.
Qed.

Section Renders.

Variable apiClient : ApiClient.

(** Being settled is a matter of the remembered dependency arrays only. *)
Lemma settled_iff (h : Hooks) :
  settled apiClient h
  <-> exists r,
        currentResourceType (tabValue (cells h)) = Some r
        /\ names_deps h = Some (tabValue (cells h), r)
        /\ content_deps h = Some (selectedConfigName (cells h), r).
Proof.
  unfold settled, render_pass. split.
  - destruct (currentResourceType (tabValue (cells h))) as [r|]; [|discriminate].
    intros H. exists r. destruct h as [s nd cd]; simpl in *.
    injection H as _ Hnd Hcd _. subst. auto.
  - intros [r [Hr [Hnd Hcd]]]. rewrite Hr.
    unfold names_due, content_due. rewrite Hnd, Hcd.
    rewrite Nat.eqb_refl, String.eqb_refl, same_name_refl. simpl.
    destruct h as [s nd cd]; simpl in *. subst. reflexivity.
Qed.

Lemma settled_commit (h : Hooks) :
  settled apiClient h -> commit apiClient h = Some (h, []).
Proof.
  intros H. unfold commit. rewrite H, H. reflexivity.
Qed.

(** Changing cells other than the tab and the selection keeps the page
    settled. *)
Lemma settled_frame (h : Hooks) (s' : ViewState) :
  settled apiClient h ->
  tabValue s' = tabValue (cells h) ->
  selectedConfigName s' = selectedConfigName (cells h) ->
  settled apiClient (mkHooks s' (names_deps h) (content_deps h)).
Proof.
  intros H Ht Hs. apply settled_iff in H. destruct H as [r [Hr [Hnd Hcd]]].
  apply settled_iff. exists r. simpl. rewrite Ht, Hs. auto.
Qed.

End Renders.

(** ** Saving *)

Section Saving.

Variable JSON_parse : string -> option Json.
Variable apiClient : ApiClient.

(** On a settled page a save is its handler alone: no effect follows it. *)
Lemma dispatch_save (h : Hooks) (category content : string) :
  settled apiClient h ->
  currentResourceType (tabValue (cells h)) = Some category ->
  let r := handleSaveConfig JSON_parse apiClient category
             (selectedConfigName (cells h)) content (cells h) in
  dispatch JSON_parse apiClient h (EditorSave content)
  = Some (mkHooks (final r) (names_deps h) (content_deps h), trace r).
Proof.
  intros Hs Hc r. unfold dispatch. rewrite Hc. simpl handler.
  destruct (detached_run (handleSaveConfig JSON_parse apiClient category
                            (selectedConfigName (cells h)) content) (cells h)) as [Hf Ht'].
  fold r in Hf, Ht'. rewrite Hf, Ht'. clear Hf Ht'.
  destruct (save_keeps_deps JSON_parse apiClient category
              (selectedConfigName (cells h)) content (cells h)) as [Ht Hn].
  fold r in Ht, Hn.
  rewrite (settled_commit apiClient _ (settled_frame apiClient h (final r) Hs Ht Hn)).
  now rewrite app_nil_r.
Qed.

(** C1, as amended: for every content string that parses to a JSON value
    [v] and every selected name [X] that is not the empty string, saving
    issues exactly one POST to [/api/resources/{category}/X] with the body
    [{content: v}]; when the POST is fulfilled, [isEditing] becomes false
    and the success notification is shown; when it is rejected, the error
    notification is shown and [isEditing] keeps its value. *)
Theorem save_posts_parsed_content (h : Hooks) (category X content : string) (v : Json) :
  settled apiClient h ->
  currentResourceType (tabValue (cells h)) = Some category ->
  selectedConfigName (cells h) = Some X ->
  JsString.truthy X = true ->
  JSON_parse content = Some v ->
  save_posts JSON_parse apiClient h category X content v.
Proof.
  intros Hs Hc Hx Ht Hp. unfold save_posts. cbv zeta.
  change ("/api/resources/" ++ category ++ "/" ++ X)
    with (resources_url category (Some X)).
  pose proof (dispatch_save h category content Hs Hc) as Hd. cbv zeta in Hd.
  rewrite Hx in Hd.
  assert (Hn : truthy_name (Some X) = true) by exact Ht.
  destruct (fulfilled (post apiClient (resources_url category (Some X))
                         (JObject [("content", v)]))) as [u|] eqn:Hr.
  - rewrite (save_fulfilled JSON_parse apiClient category (Some X) content
               (cells h) v u Hn Hp Hr) in Hd.
    eexists. eexists. split; [exact Hd|]. repeat split; reflexivity.
  - rewrite (save_rejected JSON_parse apiClient category (Some X) content
               (cells h) v Hn Hp Hr) in Hd.
    eexists. eexists. split; [exact Hd|]. repeat split; reflexivity.
Qed.

(** C6, as amended: for every content string that is not valid JSON and
    every selected name that is not the empty string, saving parses the
    content before any network call, so no POST is issued, and the parse
    failure takes the failure path of a rejected POST: the same error
    notification, the same setter calls, [isEditing] unchanged. *)
Theorem save_rejects_unparsable_content (h : Hooks) (category X content : string) :
  settled apiClient h ->
  currentResourceType (tabValue (cells h)) = Some category ->
  selectedConfigName (cells h) = Some X ->
  JsString.truthy X = true ->
  JSON_parse content = None ->
  save_rejects JSON_parse apiClient h content.
Proof.
  intros Hs Hc Hx Ht Hp. unfold save_rejects.
  pose proof (dispatch_save h category content Hs Hc) as Hd. simpl in Hd.
  rewrite Hx in Hd.
  assert (Hn : truthy_name (Some X) = true) by exact Ht.
  rewrite (save_unparsable JSON_parse apiClient category (Some X) content
             (cells h) Hn Hp) in Hd.
  eexists. eexists. split; [exact Hd|]. simpl. repeat split; reflexivity.
Qed.

(** C8: for every content string, saving while nothing is selected is a
    no-op: no network call, no setter call (so [isLoading] is not touched)
    and every cell of the state as it was. *)
Theorem save_without_selection_is_noop (h : Hooks) (content : string) :
  settled apiClient h ->
  selectedConfigName (cells h) = None ->
  dispatch JSON_parse apiClient h (EditorSave content) = Some (h, []).
Proof.
  intros Hs Hx.
  destruct (proj1 (settled_iff apiClient h) Hs) as [category [Hc _]].
  pose proof (dispatch_save h category content Hs Hc) as Hd. simpl in Hd.
  rewrite Hd, Hx.
  rewrite (save_falsy JSON_parse apiClient category None content (cells h) eq_refl).
  simpl. destruct h; reflexivity.
Qed.

(** C10: when a save fails, for any selected name and any content, the
    tab, the name list, the selection, the edited content and [isEditing]
    all keep the values they had before the call. *)
Theorem failed_save_keeps_edited_state (h : Hooks) (category X content : string) :
  settled apiClient h ->
  currentResourceType (tabValue (cells h)) = Some category ->
  selectedConfigName (cells h) = Some X ->
  save_fails JSON_parse apiClient category X content ->
  exists h' t,
    dispatch JSON_parse apiClient h (EditorSave content) = Some (h', t)
    /\ edited (cells h') = edited (cells h).
Proof.
  intros Hs Hc Hx Hf.
  pose proof (dispatch_save h category content Hs Hc) as Hd. cbv zeta in Hd.
  rewrite Hx in Hd. unfold save_fails in Hf.
  change ("/api/resources/" ++ category ++ "/" ++ X)
    with (resources_url category (Some X)) in Hf.
  eexists. eexists. split; [exact Hd|]. cbn [cells].
  destruct (truthy_name (Some X)) eqn:Hn.
  - destruct (JSON_parse content) as [v|] eqn:Hp.
    + rewrite (save_rejected JSON_parse apiClient category (Some X) content
                 (cells h) v Hn Hp Hf). reflexivity.
    + rewrite (save_unparsable JSON_parse apiClient category (Some X) content
                 (cells h) Hn Hp). reflexivity.
  - rewrite (save_falsy JSON_parse apiClient category (Some X) content (cells h) Hn).
    reflexivity.
Qed.

End Saving.

(** ** The two fetches, case by case *)

Section FetchCases.

Variable apiClient : ApiClient.

Lemma names_fulfilled (resourceType : string) (s : ViewState) (data : list string) :
  fulfilled (get_names apiClient (panel_url resourceType)) = Some data ->
  fetchConfigNames apiClient resourceType s
  = mkRun (Normal tt)
      (mkViewState (tabValue s) data (nth_error data 0) (configContent s) false
         (snackbarOpen s) (snackbarMessage s) (snackbarSeverity s) (isEditing s))
      [ Set_ (setLoading true);
        Http (GET (panel_url resourceType));
        Set_ (setConfigNames data);
        Set_ (setSelectedConfigName (nth_error data 0));
        Set_ (setLoading false) ].
Proof.
  intros Hr. run_handler. simpl. rewrite Hr. simpl.
  destruct data as [|first rest]; reflexivity.
Qed.

Lemma names_rejected (resourceType : string) (s : ViewState) :
  fulfilled (get_names apiClient (panel_url resourceType)) = None ->
  fetchConfigNames apiClient resourceType s
  = mkRun (Normal tt)
      (mkViewState (tabValue s) [] None (configContent s) false
         true "获取配置文件列表失败" Severity.error (isEditing s))
      [ Set_ (setLoading true);
        Http (GET (panel_url resourceType));
        ConsoleError "Failed to fetch config names:" RequestFailed;
        Set_ (setConfigNames []);
        Set_ (setSelectedConfigName None);
        Set_ (setSnackbarMessage "获取配置文件列表失败");
        Set_ (setSnackbarSeverity Severity.error);
        Set_ (setSnackbarOpen true);
        Set_ (setLoading false) ].
Proof.
  intros Hr. run_handler. simpl. rewrite Hr. reflexivity.
Qed.

Lemma content_fulfilled (resourceType name : string) (s : ViewState) (data : Json) :
  fulfilled (get_content apiClient (client_url resourceType name)) = Some data ->
  fetchConfigContent apiClient resourceType name s
  = mkRun (Normal tt)
      (mkViewState (tabValue s) (configNames s) (selectedConfigName s)
         (JSON.stringify data 2) false
         (snackbarOpen s) (snackbarMessage s) (snackbarSeverity s) (isEditing s))
      [ Set_ (setLoading true);
        Http (GET (client_url resourceType name));
        Set_ (setConfigContent (JSON.stringify data 2));
        Set_ (setLoading false) ].
Proof.
  intros Hr. run_handler. simpl. rewrite Hr. reflexivity.
Qed.

Lemma content_rejected (resourceType name : string) (s : ViewState) :
  fulfilled (get_content apiClient (client_url resourceType name)) = None ->
  fetchConfigContent apiClient resourceType name s
  = mkRun (Normal tt)
      (mkViewState (tabValue s) (configNames s) (selectedConfigName s) "" false
         true "获取配置文件内容失败" Severity.error (isEditing s))
      [ Set_ (setLoading true);
        Http (GET (client_url resourceType name));
        ConsoleError "Failed to fetch config content:" RequestFailed;
        Set_ (setConfigContent "");
        Set_ (setSnackbarMessage "获取配置文件内容失败");
        Set_ (setSnackbarSeverity Severity.error);
        Set_ (setSnackbarOpen true);
        Set_ (setLoading false) ].
Proof.
  intros Hr. run_handler. simpl. rewrite Hr. reflexivity.
Qed.

(** The content fetch sends one request whatever the reply, and never
    changes the tab or the selection. *)
Lemma content_fetch_frame (resourceType name : string) (s : ViewState) :
  let r := fetchConfigContent apiClient resourceType name s in
  requests (trace r) = [GET (client_url resourceType name)]
  /\ tabValue (final r) = tabValue s
  /\ selectedConfigName (final r) = selectedConfigName s
  /\ configNames (final r) = configNames s.
Proof.
  destruct (fulfilled (get_content apiClient (client_url resourceType name)))
    as [data|] eqn:Hr; simpl.
  - rewrite (content_fulfilled resourceType name s data Hr). repeat split.
  - rewrite (content_rejected resourceType name s Hr). repeat split.
Qed.

End FetchCases.

(** ** The loading flag *)

Lemma brackets_names (apiClient : ApiClient) (resourceType : string) :
  brackets_loading (fetchConfigNames apiClient resourceType).
Proof.
  intros s.
  destruct (fulfilled (get_names apiClient (panel_url resourceType))) as [data|] eqn:Hr.
  - rewrite (names_fulfilled apiClient resourceType s data Hr). simpl.
    repeat split; try (eexists; reflexivity).
    exists [Set_ (setLoading true); Http (GET (panel_url resourceType));
            Set_ (setConfigNames data); Set_ (setSelectedConfigName (nth_error data 0))].
    reflexivity.
  - rewrite (names_rejected apiClient resourceType s Hr). simpl.
    repeat split; try (eexists; reflexivity).
    eexists (_ :: _ :: _ :: _ :: _ :: _ :: _ :: _ :: []). reflexivity.
Qed.

Lemma brackets_content (apiClient : ApiClient) (resourceType name : string) :
  brackets_loading (fetchConfigContent apiClient resourceType name).
Proof.
  intros s.
  destruct (fulfilled (get_content apiClient (client_url resourceType name)))
    as [data|] eqn:Hr.
  - rewrite (content_fulfilled apiClient resourceType name s data Hr). simpl.
    repeat split; try (eexists; reflexivity).
    eexists (_ :: _ :: _ :: []). reflexivity.
  - rewrite (content_rejected apiClient resourceType name s Hr). simpl.
    repeat split; try (eexists; reflexivity).
    eexists (_ :: _ :: _ :: _ :: _ :: _ :: _ :: []). reflexivity.
Qed.

Lemma brackets_save (JSON_parse : string -> option Json) (apiClient : ApiClient)
    (category : string) (name : option string) (content : string) :
  truthy_name name = true ->
  brackets_loading (handleSaveConfig JSON_parse apiClient category name content).
Proof.
  intros Hn s.
  destruct (JSON_parse content) as [v|] eqn:Hp.
  - destruct (fulfilled (post apiClient (resources_url category name)
                           (JObject [("content", v)]))) as [u|] eqn:Hr.
    + rewrite (save_fulfilled JSON_parse apiClient category name content s v u Hn Hp Hr).
      simpl. repeat split; try (eexists; reflexivity).
      eexists (_ :: _ :: _ :: _ :: _ :: _ :: []). reflexivity.
    + rewrite (save_rejected JSON_parse apiClient category name content s v Hn Hp Hr).
      simpl. repeat split; try (eexists; reflexivity).
      eexists (_ :: _ :: _ :: _ :: _ :: _ :: []). reflexivity.
  - rewrite (save_unparsable JSON_parse apiClient category name content s Hn Hp).
    simpl. repeat split; try (eexists; reflexivity).
    eexists (_ :: _ :: _ :: _ :: _ :: []). reflexivity.
Qed.

(** C7, as amended: the name fetch, the content fetch and a save with a
    selected, non-empty name each raise the loading flag as their first
    effect and lower it as their last on every path, whatever the reply and
    whether or not the content parses; a [finally] block lowering the flag
    does so whatever the guarded blocks do.  A save with no selection (null
    or the empty string) returns before it touches the flag. *)
Theorem loading_flag_is_bracketed (JSON_parse : string -> option Json)
    (apiClient : ApiClient) (resourceType name : string)
    (selected : option string) (content : string) :
  brackets_loading (fetchConfigNames apiClient resourceType)
  /\ brackets_loading (fetchConfigContent apiClient resourceType name)
  /\ (truthy_name selected = true ->
      brackets_loading (handleSaveConfig JSON_parse apiClient resourceType selected content))
  /\ (truthy_name selected = false ->
      forall s, handleSaveConfig JSON_parse apiClient resourceType selected content s
                = mkRun (Normal tt) s [])
  /\ (forall (body : M unit) (handler : Thrown -> M unit) (s : ViewState),
        loading (final (try_catch_finally body handler (set (setLoading false)) s)) = false).
Proof.
  split; [apply brackets_names|].
  split; [apply brackets_content|].
  split; [apply brackets_save|].
  split.
  - intros Hn s. apply save_falsy, Hn.
  - intros body handler s. apply (finally_releases_loading body handler s).
Qed.

(** ** Entering a category *)

Section Entering.

Variable JSON_parse : string -> option Json.
Variable apiClient : ApiClient.

(** The render that enters a category: both effects run, the first loads
    the names, the second still sees no selection and clears the content. *)
Lemma entering_pass (h : Hooks) (category : string) :
  currentResourceType (tabValue (cells h)) = Some category ->
  names_due h category = true ->
  content_due h category = true ->
  selectedConfigName (cells h) = None ->
  let r := fetchConfigNames apiClient category (cells h) in
  render_pass apiClient h
  = Some (mkHooks (apply_update (setConfigContent "") (final r))
            (Some (tabValue (cells h), category)) (Some (None, category)),
          (trace r ++ [Set_ (setConfigContent "")])%list).
Proof.
  intros Hc Hn Hd Hs r. unfold render_pass. rewrite Hc, Hn, Hd, Hs.
  unfold content_effect, bind, detached, set. subst r.
  destruct (fetchConfigNames apiClient category (cells h)) as [c s1 t1]. reflexivity.
Qed.

(** The render that follows: the content effect runs again when a name got
    selected, and fetches when that name is not empty. *)
Lemma entered_pass (s : ViewState) (category : string) :
  currentResourceType (tabValue s) = Some category ->
  render_pass apiClient
    (mkHooks s (Some (tabValue s, category)) (Some (None, category)))
  = match selectedConfigName s with
    | None =>
        Some (mkHooks s (Some (tabValue s, category)) (Some (None, category)), [])
    | Some name =>
        let r := content_effect apiClient category (Some name) s in
        Some (mkHooks (final r) (Some (tabValue s, category)) (Some (Some name, category)),
              trace r)
    end.
Proof.
  intros Hc. unfold render_pass. cbn [cells names_deps content_deps]. rewrite Hc.
  unfold names_due, content_due. cbn [cells names_deps content_deps].
  rewrite Nat.eqb_refl, String.eqb_refl. cbn [andb negb].
  destruct (selectedConfigName s) as [name|]; cbn [same_name andb negb].
  - unfold bind, ret. cbv zeta.
    destruct (content_effect apiClient category (Some name) s) as [c s2 t2]. reflexivity.
  - reflexivity.
Qed.

(** Entering a category whose name list is served. *)
Lemma entering_loads_names (h : Hooks) (category : string) (L : list string) :
  currentResourceType (tabValue (cells h)) = Some category ->
  names_due h category = true ->
  content_due h category = true ->
  selectedConfigName (cells h) = None ->
  fulfilled (get_names apiClient (panel_url category)) = Some L ->
  exists h' t,
    commit apiClient h = Some (h', t)
    /\ configNames (cells h') = L
    /\ tabValue (cells h') = tabValue (cells h)
    /\ match L with
       | first :: _ =>
           selectedConfigName (cells h') = Some first
           /\ if JsString.truthy first
              then requests t = [GET (panel_url category); GET (client_url category first)]
              else configContent (cells h') = ""
                   /\ requests t = [GET (panel_url category)]
       | [] =>
           selectedConfigName (cells h') = None
           /\ configContent (cells h') = ""
           /\ requests t = [GET (panel_url category)]
       end.
Proof.
  intros Hc Hn Hd Hs Hr. unfold commit.
  rewrite (entering_pass h category Hc Hn Hd Hs).
  rewrite (names_fulfilled apiClient category (cells h) L Hr). simpl.
  match goal with
  | |- context [render_pass apiClient (mkHooks ?s _ _)] =>
      pose proof (entered_pass s category) as Hp
  end.
  simpl in Hp. rewrite (Hp Hc). clear Hp.
  destruct L as [|first rest]; cbn [nth_error selectedConfigName].
  - eexists. eexists. split; [reflexivity|]. simpl. repeat split.
  - unfold content_effect. destruct (JsString.truthy first) eqn:Ht; cbv zeta.
    + match goal with
      | |- context [detached (fetchConfigContent apiClient category first) ?s] =>
          destruct (content_fetch_frame apiClient category first s)
            as [Hq [Htab [Hsel Hnames]]];
          destruct (detached_run (fetchConfigContent apiClient category first) s)
            as [Hf Htr]
      end.
      eexists. eexists. split; [reflexivity|].
      cbn [cells]. rewrite Hf, Hnames, Htab, Hsel.
      rewrite Htr. cbn [requests]. rewrite Hq. repeat split.
    + eexists. eexists. split; [reflexivity|]. simpl. repeat split.
Qed.

(** Entering a category whose name list fails. *)
Lemma entering_fails_names (h : Hooks) (category : string) :
  currentResourceType (tabValue (cells h)) = Some category ->
  names_due h category = true ->
  content_due h category = true ->
  selectedConfigName (cells h) = None ->
  fulfilled (get_names apiClient (panel_url category)) = None ->
  exists h' t,
    commit apiClient h = Some (h', t)
    /\ configNames (cells h') = []
    /\ selectedConfigName (cells h') = None
    /\ notification (cells h') = Some ("获取配置文件列表失败", Severity.error)
    /\ requests t = [GET (panel_url category)]
    /\ settled apiClient h'.
Proof.
  intros Hc Hn Hd Hs Hr. unfold commit.
  rewrite (entering_pass h category Hc Hn Hd Hs).
  rewrite (names_rejected apiClient category (cells h) Hr). simpl.
  match goal with
  | |- context [render_pass apiClient (mkHooks ?s _ _)] =>
      pose proof (entered_pass s category) as Hp
  end.
  simpl in Hp. rewrite (Hp Hc). clear Hp.
  eexists. eexists. split; [reflexivity|]. simpl. repeat split.
  apply settled_iff. exists category. simpl. auto.
Qed.

(** Selecting another tab on a settled page enters its category. *)
Lemma tab_change_enters (h : Hooks) (i : nat) (category : string) :
  settled apiClient h ->
  i <> tabValue (cells h) ->
  currentResourceType i = Some category ->
  let h0 := mkHooks (final (handleTabChange i (cells h))) (names_deps h) (content_deps h) in
  dispatch JSON_parse apiClient h (TabChange i)
  = match commit apiClient h0 with
    | Some (h', t) =>
        Some (h', ([Set_ (setTabValue i); Set_ (setSelectedConfigName None)] ++ t)%list)
    | None => None
    end
  /\ currentResourceType (tabValue (cells h0)) = Some category
  /\ names_due h0 category = true
  /\ content_due h0 category = true
  /\ selectedConfigName (cells h0) = None.
Proof.
  intros Hs Hi Hc h0.
  destruct (proj1 (settled_iff apiClient h) Hs) as [old [Ho [Hnd Hcd]]].
  split; [|split; [|split; [|split]]].
  - unfold dispatch. rewrite Ho. reflexivity.
  - exact Hc.
  - unfold names_due. simpl. rewrite Hnd.
    destruct (Nat.eqb_spec (tabValue (cells h)) i) as [E|E]; [congruence|reflexivity].
  - unfold content_due. simpl. rewrite Hcd.
    destruct (String.eqb_spec old category) as [E|E].
    + subst old. exfalso. apply Hi. symmetry.
      exact (currentResourceType_inj _ _ _ Ho Hc).
    + now rewrite andb_false_r.
  - reflexivity.
Qed.

End Entering.

(** ** Every page the component goes through is settled *)

Section Settling.

Variable JSON_parse : string -> option Json.
Variable apiClient : ApiClient.

Lemma names_fetch_keeps_tab (resourceType : string) (s : ViewState) :
  tabValue (final (fetchConfigNames apiClient resourceType s)) = tabValue s.
Proof.
  destruct (fulfilled (get_names apiClient (panel_url resourceType))) as [data|] eqn:Hr.
  - now rewrite (names_fulfilled apiClient resourceType s data Hr).
  - now rewrite (names_rejected apiClient resourceType s Hr).
Qed.

Lemma content_effect_frame (resourceType : string) (name : option string)
    (s : ViewState) :
  tabValue (final (content_effect apiClient resourceType name s)) = tabValue s
  /\ selectedConfigName (final (content_effect apiClient resourceType name s))
     = selectedConfigName s.
Proof.
  unfold content_effect.
  destruct name as [n|]; [destruct (JsString.truthy n)|]; try (split; reflexivity).
  destruct (detached_run (fetchConfigContent apiClient resourceType n) s) as [Hf _].
  rewrite Hf.
  destruct (content_fetch_frame apiClient resourceType n s) as [_ [Ht [Hs _]]].
  auto.
Qed.

(** What a render pass leaves behind. *)
Lemma render_pass_frame (h h' : Hooks) (t : list Effect) :
  render_pass apiClient h = Some (h', t) ->
  exists category,
    currentResourceType (tabValue (cells h)) = Some category
    /\ tabValue (cells h') = tabValue (cells h)
    /\ names_deps h' = Some (tabValue (cells h), category)
    /\ content_deps h' = Some (selectedConfigName (cells h), category)
    /\ (names_due h category = false ->
        selectedConfigName (cells h') = selectedConfigName (cells h)).
Proof.
  unfold render_pass.
  destruct (currentResourceType (tabValue (cells h))) as [category|]; [|discriminate].
  intros H. injection H as Hh _. subst h'. exists category. cbn [cells names_deps content_deps].
  split; [reflexivity|].
  set (second := if content_due h category
                 then content_effect apiClient category (selectedConfigName (cells h))
                 else ret tt).
  assert (Hsecond : forall s1,
             tabValue (final (second s1)) = tabValue s1
             /\ selectedConfigName (final (second s1)) = selectedConfigName s1).
  { intros s1. unfold second. destruct (content_due h category).
    - apply content_effect_frame.
    - split; reflexivity. }
  clearbody second. unfold bind.
  destruct (names_due h category) eqn:Hn.
  - pose proof (names_fetch_keeps_tab category (cells h)) as Ht.
    unfold detached.
    destruct (fetchConfigNames apiClient category (cells h)) as [c s1 t1].
    cbn [final] in Ht.
    destruct (Hsecond s1) as [H1 H2].
    destruct (second s1) as [c2 s2 t2].
    cbn [final] in *. repeat split; congruence.
  - unfold ret.
    destruct (Hsecond (cells h)) as [H1 H2].
    destruct (second (cells h)) as [c2 s2 t2].
    cbn [final] in *. repeat split; congruence.
Qed.

(** With the tab inside the table the page renders, and so do the two
    renders of a commit. *)
Lemma commit_defined (h : Hooks) :
  tabValue (cells h) < 5 -> exists h' t, commit apiClient h = Some (h', t).
Proof.
  intros Hi. destruct (currentResourceType_defined _ Hi) as [category Hc].
  unfold commit.
  destruct (render_pass apiClient h) as [[h1 t1]|] eqn:H1.
  - destruct (render_pass_frame h h1 t1 H1) as [c1 [_ [Ht1 _]]].
    destruct (render_pass apiClient h1) as [[h2 t2]|] eqn:H2.
    + eexists. eexists. reflexivity.
    + unfold render_pass in H2. rewrite Ht1, Hc in H2. discriminate H2.
  - unfold render_pass in H1. rewrite Hc in H1. discriminate H1.
Qed.

(** The two renders of [commit] leave no effect waiting. *)
Lemma commit_settles (h h' : Hooks) (t : list Effect) :
  commit apiClient h = Some (h', t) -> settled apiClient h'.
Proof.
  unfold commit.
  destruct (render_pass apiClient h) as [[h1 t1]|] eqn:H1; [|discriminate].
  destruct (render_pass apiClient h1) as [[h2 t2]|] eqn:H2; [|discriminate].
  intros H. injection H as <- _.
  destruct (render_pass_frame h h1 t1 H1) as [c1 [Hc1 [Ht1 [Hn1 [Hd1 _]]]]].
  destruct (render_pass_frame h1 h2 t2 H2) as [c2 [Hc2 [Ht2 [Hn2 [Hd2 Hs2]]]]].
  assert (c2 = c1) by (rewrite Ht1 in Hc2; congruence). subst c2.
  apply settled_iff. exists c1. rewrite Ht2.
  split; [exact Hc2|]. split; [exact Hn2|].
  rewrite Hd2. f_equal. f_equal. symmetry. apply Hs2.
  unfold names_due. rewrite Hn1, Ht1, Nat.eqb_refl, String.eqb_refl. reflexivity.
Qed.

Lemma reachable_settled (h : Hooks) :
  reachable JSON_parse apiClient h -> settled apiClient h.
Proof.
  intros [h0 t Hm | h0 h1 ev t _ Hd].
  - exact (commit_settles _ _ _ Hm).
  - unfold dispatch in Hd.
    destruct (currentResourceType (tabValue (cells h0))); [|discriminate].
    destruct (commit apiClient _) as [[h2 t2]|] eqn:Hc; [|discriminate].
    injection Hd as <- _. exact (commit_settles _ _ _ Hc).
Qed.

End Settling.

(** ** Loading the name list *)

(** A request is rejected exactly when it fails in one of the three ways. *)
Lemma rejected_iff {A} (reply : Reply A) :
  fulfilled reply = None <-> request_fails reply.
Proof.
  unfold request_fails. destruct reply as [code data| |]; cbn; unfold is_2xx.
  - split.
    + destruct (Nat.leb_spec 200 code), (Nat.ltb_spec code 300); cbn;
        try discriminate; intros _; right; right; exists code, data; split; auto; lia.
    + intros [H|[H|[c [d [H Hc]]]]]; try discriminate. injection H as -> _.
      destruct (Nat.leb_spec 200 c), (Nat.ltb_spec c 300); cbn; try reflexivity; lia.
  - split; auto.
  - split; auto.
Qed.

Section Names.

Variable JSON_parse : string -> option Json.
Variable apiClient : ApiClient.

(** Every load of the name list starts from a page that enters the
    category. *)
Lemma name_load_enters (category : string) (result : option (Hooks * list Effect)) :
  name_load JSON_parse apiClient category result ->
  exists h0 prefix,
    requests prefix = []
    /\ result = match commit apiClient h0 with
                | Some (h', t) => Some (h', (prefix ++ t)%list)
                | None => None
                end
    /\ currentResourceType (tabValue (cells h0)) = Some category
    /\ names_due h0 category = true
    /\ content_due h0 category = true
    /\ selectedConfigName (cells h0) = None.
Proof.
  intros [Hc | h i Hs Hi Hc].
  - exists (mkHooks initialState None None), [].
    split; [reflexivity|]. split.
    + unfold mount. destruct (commit apiClient _) as [[h' t]|]; reflexivity.
    + repeat split; try reflexivity. exact Hc.
  - destruct (tab_change_enters JSON_parse apiClient h i category Hs Hi Hc)
      as [Hd [H1 [H2 [H3 H4]]]].
    eexists. exists [Set_ (setTabValue i); Set_ (setSelectedConfigName None)].
    split; [reflexivity|]. split; [exact Hd|]. auto.
Qed.

(** C2, as amended: for every name list [L] served for the category being
    entered, [configNames] becomes [L] as returned; when [L] is empty,
    nothing is selected, the content is cleared and no content fetch is
    issued; when [L] is not empty its first name is selected, and a
    content fetch for it is issued when that name is not the empty string;
    an empty first name is selected but not fetched, and the content is
    cleared. *)
Theorem loaded_names_select_first (category : string) (L : list string)
    (result : option (Hooks * list Effect)) :
  name_load JSON_parse apiClient category result ->
  fulfilled (get_names apiClient ("/api/v1/panel/" ++ category)) = Some L ->
  names_loaded category L result.
Proof.
  intros Hl Hr.
  destruct (name_load_enters category result Hl)
    as [h0 [prefix [Hq [Hres [Hc [Hn [Hd Hs]]]]]]].
  destruct (entering_loads_names apiClient h0 category L Hc Hn Hd Hs Hr)
    as [h' [t [Hcommit [Hnames [_ Hcases]]]]].
  rewrite Hcommit in Hres. unfold names_loaded.
  exists h', (prefix ++ t)%list. split; [exact Hres|]. split; [exact Hnames|].
  rewrite requests_app, Hq. simpl. exact Hcases.
Qed.

(** C5: whenever the load of the name list fails (no reply, a body that
    cannot be parsed, or a status outside 2xx), then from every state of the
    page [configNames] becomes the empty list, the selection becomes null,
    the error notification with its fixed message is shown and the loading
    flag is lowered; the request that failed is the only request of the
    load, and on both occasions the page loads names (mounting, a tab
    change) the page is settled afterwards: nothing is tried again. *)
Theorem failed_names_reset_selection (category : string) (s : ViewState)
    (result : option (Hooks * list Effect)) :
  request_fails (get_names apiClient ("/api/v1/panel/" ++ category)) ->
  (configNames (final (fetchConfigNames apiClient category s)) = []
   /\ selectedConfigName (final (fetchConfigNames apiClient category s)) = None
   /\ notification (final (fetchConfigNames apiClient category s))
      = Some ("获取配置文件列表失败", Severity.error)
   /\ loading (final (fetchConfigNames apiClient category s)) = false
   /\ requests (trace (fetchConfigNames apiClient category s))
      = [GET ("/api/v1/panel/" ++ category)]
   /\ completion (fetchConfigNames apiClient category s) = Normal tt)
  /\ (name_load JSON_parse apiClient category result ->
      exists h' t,
        result = Some (h', t)
        /\ configNames (cells h') = []
        /\ selectedConfigName (cells h') = None
        /\ notification (cells h') = Some ("获取配置文件列表失败", Severity.error)
        /\ requests t = [GET ("/api/v1/panel/" ++ category)]
        /\ settled apiClient h').
Proof.
  intros Hf. apply rejected_iff in Hf.
  change ("/api/v1/panel/" ++ category) with (panel_url category) in *.
  split.
  - rewrite (names_rejected apiClient category s Hf). cbn. auto 10.
  - intros Hl.
    destruct (name_load_enters category result Hl)
      as [h0 [prefix [Hq [Hres [Hc [Hn [Hd Hs]]]]]]].
    destruct (entering_fails_names apiClient h0 category Hc Hn Hd Hs Hf)
      as [h' [t [Hcommit [H1 [H2 [H3 [H4 H5]]]]]]].
    rewrite Hcommit in Hres.
    exists h', (prefix ++ t)%list. split; [exact Hres|].
    rewrite requests_app, Hq. cbn [app]. auto.
Qed.

End Names.

(** ** Fetching the content *)

Lemma slice_0_m1_snoc (stem : string) (c : ascii) :
  JsString.slice_0_m1 (stem ++ String c "") = stem.
Proof.
  induction stem as [|d stem IH]; simpl; [reflexivity|].
  rewrite IH. destruct stem; reflexivity.
Qed.

(** C3: for every category and name, the content fetch sends its one GET
    to [/api/v1/client/{category without its final character}?name={name}];
    the stripping removes exactly the last character, and turns the five
    keys into [ClassPlan], [TimeLayout], [SubjectsSourc],
    [DefaultSettingsSourc] and [PolicySourc]. *)
Theorem content_path_strips_last_character (apiClient : ApiClient)
    (category name : string) (s : ViewState) (stem : string) (c : ascii) :
  requests (trace (fetchConfigContent apiClient category name s))
  = [GET ("/api/v1/client/" ++ JsString.slice_0_m1 category ++ "?name=" ++ name)]
  /\ JsString.slice_0_m1 (stem ++ String c "") = stem
  /\ map (fun r => JsString.slice_0_m1 (key r)) resourceTypes
     = ["ClassPlan"; "TimeLayout"; "SubjectsSourc"; "DefaultSettingsSourc"; "PolicySourc"].
Proof.
  split; [|split].
  - exact (proj1 (content_fetch_frame apiClient category name s)).
  - apply slice_0_m1_snoc.
  - reflexivity.
Qed.

Lemma string_app_assoc (a b c : string) : ((a ++ b) ++ c = a ++ (b ++ c))%string.
Proof.
  induction a as [|x a IH]; simpl; [reflexivity|]. now rewrite IH.
Qed.

(** The layout of an object with one member under indent 2. *)
Lemma stringify_singleton (k : string) (v : Json) :
  JSON.stringify (JObject [(k, v)]) 2
  = "{" ++ JsString.newline ++ "  " ++ JSON.QuoteJSONString k ++ ": "
        ++ JSON.SerializeJSONProperty "  " "  " v ++ JsString.newline ++ "}".
Proof.
  unfold JSON.stringify, JSON.QuoteJSONString. simpl.
  rewrite !string_app_assoc. reflexivity.
Qed.

(** ** The serializer prints the 2-space layout *)














(** ** The notification *)

(** C9: a close request with reason [clickaway] leaves the notification as
    it is; a close request with any other reason, or with none, closes it;
    the notification is given an auto-hide duration of 3000, after which
    its timer closes it, and not before. *)
Theorem snackbar_close_ignores_clickaway (reason : option string) (s : ViewState)
    (elapsed : nat) :
  (reason = Some "clickaway" -> handleSnackbarClose reason s = mkRun (Normal tt) s [])
  /\ (reason <> Some "clickaway" ->
      handleSnackbarClose reason s
      = mkRun (Normal tt) (apply_update (setSnackbarOpen false) s)
          [Set_ (setSnackbarOpen false)])
  /\ autoHideDuration (snackbar s) = 3000
  /\ (snackbarOpen s = true -> 3000 <= elapsed ->
      snackbarOpen (final (snackbar_timer (snackbar s) elapsed s)) = false)
  /\ (elapsed < 3000 -> snackbar_timer (snackbar s) elapsed s = mkRun (Normal tt) s []).
Proof.
  split; [|split; [|split; [|split]]].
  - intros ->. reflexivity.
  - intros Hr. unfold handleSnackbarClose.
    destruct reason as [r|]; [|reflexivity].
    destruct (String.eqb_spec r "clickaway") as [E|E]; [subst; congruence|reflexivity].
  - reflexivity.
  - intros Ho He. unfold snackbar_timer, snackbar. cbn [open autoHideDuration onClose].
    rewrite Ho. destruct (Nat.leb_spec 3000 elapsed) as [_|Hlt]; [reflexivity|lia].
  - intros He. unfold snackbar_timer, snackbar. cbn [open autoHideDuration onClose].
    destruct (Nat.leb_spec 3000 elapsed) as [Hle|_]; [lia|].
    now rewrite andb_false_r.
Qed.

(** ** The statements on sample inputs *)

(** The sample page with the empty name selected is a page the component
    reaches: the backend lists one name, the empty string, and the editor
    enters edit mode. *)
Example page_with_is_reachable :
  reachable JSON.parse (backend [""] 200) (page_with [""] (Some "") "").
Proof.
  eapply reach_dispatch with (ev := EditorSetIsEditing true).
  - eapply reach_mount. vm_compute. reflexivity.
  - vm_compute. reflexivity.
Qed.

Example parse_a1 : JSON.parse doc_a1 = Some value_a1.
Proof. vm_compute. reflexivity. Qed.

Example parse_keeps_index_keys_first :
  JSON.parse
    ("{" ++ JsString.double_quote ++ "b" ++ JsString.double_quote ++ ": [1, -2, true, null], "
         ++ JsString.double_quote ++ "1" ++ JsString.double_quote ++ ": {}, "
         ++ JsString.double_quote ++ "b" ++ JsString.double_quote ++ ": 7}")
  = Some (JObject [("1", JObject []); ("b", JNumber "7")]).
Proof. vm_compute. reflexivity. Qed.

Example parse_reads_back_pretty_a1 :
  JSON.parse (JSON.stringify value_a1 2) = Some value_a1.
Proof. vm_compute. reflexivity. Qed.

Example stringify_zero_and_negative :
  JSON.stringify (JArray [JNumber "0"; JNumber "-12"; JNumber "1e+21"; JNumber "0.5"]) 0
  = "[0,-12,1e+21,0.5]".
Proof. vm_compute. reflexivity. Qed.

Example pretty_print_numbers :
  JSON.stringify (JArray [JNumber "1e+21"; JNumber "0.5"; JObject [("k", JArray [])]]) 2
  = "[" ++ JsString.newline
    ++ "  1e+21," ++ JsString.newline
    ++ "  0.5," ++ JsString.newline
    ++ "  {" ++ JsString.newline
    ++ "    " ++ JsString.double_quote ++ "k" ++ JsString.double_quote ++ ": []"
    ++ JsString.newline
    ++ "  }" ++ JsString.newline
    ++ "]".
Proof. vm_compute. reflexivity. Qed.

(** A name list answered with status 500 while [X] is selected among [X]
    and [Y]: the list is emptied and the selection dropped. *)
Example names_status_500_on_busy_page :
  edited (final (fetchConfigNames broken_backend "ClassPlans" (cells busy_page)))
  = (0, [], None, "edited", true).
Proof. vm_compute. reflexivity. Qed.

Example parse_rejects_unclosed_array : JSON.parse "[1,2" = None.
Proof. vm_compute. reflexivity. Qed.

Example stringify_nested :
  JSON.stringify (JObject [("a", JArray [JNumber "-3"; JArray []; JString "h"])]) 2
  = "{" ++ JsString.newline
    ++ "  " ++ JsString.double_quote ++ "a" ++ JsString.double_quote ++ ": [" ++ JsString.newline
    ++ "    -3," ++ JsString.newline
    ++ "    []," ++ JsString.newline
    ++ "    " ++ JsString.double_quote ++ "h" ++ JsString.double_quote ++ JsString.newline
    ++ "  ]" ++ JsString.newline
    ++ "}".
Proof. vm_compute. reflexivity. Qed.

(** Mounting against a backend that lists [X] and [Y]: the names are
    fetched, [X] is selected and its content is fetched and pretty-printed. *)
Example mount_selects_and_fetches :
  exists t,
    mount (backend ["X"; "Y"] 200)
    = Some ({| cells :=
                 {| tabValue := 0;
                    configNames := ["X"; "Y"];
                    selectedConfigName := Some "X";
                    configContent := pretty_a1;
                    loading := false;
                    snackbarOpen := false;
                    snackbarMessage := "";
                    snackbarSeverity := Severity.success;
                    isEditing := false |};
               names_deps := Some (0, "ClassPlans");
               content_deps := Some (Some "X", "ClassPlans") |}, t)
    /\ requests t = [GET "/api/v1/panel/ClassPlans"; GET "/api/v1/client/ClassPlan?name=X"].
Proof.
  eexists. split; vm_compute; reflexivity.
Qed.

(** Selecting the second tab on the mounted page: the names of
    [TimeLayouts] are fetched, then the content of the first one from the
    path without the final [s]. *)
Example tab_change_fetches_time_layout :
  exists h' t,
    dispatch JSON.parse (backend ["X"] 200) (page_with ["X"] (Some "X") pretty_a1)
      (TabChange 1) = Some (h', t)
    /\ tabValue (cells h') = 1
    /\ selectedConfigName (cells h') = Some "X"
    /\ requests t = [GET "/api/v1/panel/TimeLayouts"; GET "/api/v1/client/TimeLayout?name=X"].
Proof.
  eexists. eexists. split; [vm_compute; reflexivity|]. repeat split.
Qed.

(** Saving [{"a":1}] with [X] selected, answered with status 200 and with
    status 500. *)
Example save_a1_status_200 :
  exists h' t,
    dispatch JSON.parse (backend ["X"] 200) (page_with ["X"] (Some "X") pretty_a1)
      (EditorSave doc_a1) = Some (h', t)
    /\ requests t
       = [POST "/api/resources/ClassPlans/X" (JObject [("content", value_a1)])]
    /\ isEditing (cells h') = false
    /\ notification (cells h') = Some ("配置文件保存成功", Severity.success)
    /\ loading (cells h') = false.
Proof.
  eexists. eexists. split; [vm_compute; reflexivity|]. repeat split.
Qed.

Example save_a1_status_500 :
  exists h' t,
    dispatch JSON.parse (backend ["X"] 500) (page_with ["X"] (Some "X") pretty_a1)
      (EditorSave doc_a1) = Some (h', t)
    /\ requests t
       = [POST "/api/resources/ClassPlans/X" (JObject [("content", value_a1)])]
    /\ isEditing (cells h') = true
    /\ notification (cells h') = Some ("配置文件保存失败", Severity.error)
    /\ loading (cells h') = false.
Proof.
  eexists. eexists. split; [vm_compute; reflexivity|]. repeat split.
Qed.

(** Saving [{"a":1}] with [X] selected against a backend that accepts it. *)
Lemma save_posts_parsed_content_witness :
  save_posts JSON.parse (backend ["X"] 200)
    (page_with ["X"] (Some "X") pretty_a1) "ClassPlans" "X" doc_a1 value_a1.
Proof.
  apply save_posts_parsed_content; vm_compute; reflexivity.
Defined.

(** With the empty string selected, which is not null, a save of a text
    that parses leaves the page as it is and sends no POST. *)
Lemma save_with_empty_name_posts_nothing :
  settled (backend [""] 200) (page_with [""] (Some "") "")
  /\ currentResourceType (tabValue (cells (page_with [""] (Some "") ""))) = Some "ClassPlans"
  /\ selectedConfigName (cells (page_with [""] (Some "") "")) = Some ""
  /\ JSON.parse doc_a1 = Some value_a1
  /\ dispatch JSON.parse (backend [""] 200) (page_with [""] (Some "") "") (EditorSave doc_a1)
     = Some (page_with [""] (Some "") "", [])
  /\ ~ save_posts JSON.parse (backend [""] 200)
         (page_with [""] (Some "") "") "ClassPlans" "" doc_a1 value_a1.
Proof.
  repeat split; try (vm_compute; reflexivity).
  intros [h' [t [Hd [Hq _]]]].
  vm_compute in Hd. injection Hd as <- <-. vm_compute in Hq. discriminate Hq.
Qed.

(** Saving the text of an unclosed object with [X] selected. *)
Lemma save_rejects_unparsable_content_witness :
  save_rejects JSON.parse (backend ["X"] 200)
    (page_with ["X"] (Some "X") pretty_a1) "{".
Proof.
  apply (save_rejects_unparsable_content JSON.parse (backend ["X"] 200)
           (page_with ["X"] (Some "X") pretty_a1) "ClassPlans" "X" "{");
    vm_compute; reflexivity.
Defined.

(** With the empty string selected, a save of a text that does not parse
    leaves the page as it is: no notification is raised. *)
Lemma save_with_empty_name_raises_nothing :
  settled (backend [""] 200) (page_with [""] (Some "") "")
  /\ selectedConfigName (cells (page_with [""] (Some "") "")) = Some ""
  /\ JSON.parse "{" = None
  /\ dispatch JSON.parse (backend [""] 200) (page_with [""] (Some "") "") (EditorSave "{")
     = Some (page_with [""] (Some "") "", [])
  /\ notification (cells (page_with [""] (Some "") "")) = None
  /\ ~ save_rejects JSON.parse (backend [""] 200) (page_with [""] (Some "") "") "{".
Proof.
  repeat split; try (vm_compute; reflexivity).
  intros [h' [t [Hd [_ [Hn _]]]]].
  vm_compute in Hd. injection Hd as <- <-. vm_compute in Hn. discriminate Hn.
Qed.

(** Saving with nothing listed and nothing selected. *)
Lemma save_without_selection_is_noop_witness :
  dispatch JSON.parse (backend [] 200) (page_with [] None "") (EditorSave doc_a1)
  = Some (page_with [] None "", []).
Proof.
  apply save_without_selection_is_noop; vm_compute; reflexivity.
Defined.

(** Saving [{"a":1}] with [X] selected against a backend that answers 500. *)
Lemma failed_save_keeps_edited_state_witness :
  exists h' t,
    dispatch JSON.parse (backend ["X"] 500) (page_with ["X"] (Some "X") pretty_a1)
      (EditorSave doc_a1) = Some (h', t)
    /\ edited (cells h') = edited (cells (page_with ["X"] (Some "X") pretty_a1)).
Proof.
  apply (failed_save_keeps_edited_state JSON.parse (backend ["X"] 500)
           (page_with ["X"] (Some "X") pretty_a1) "ClassPlans" "X" doc_a1);
    vm_compute; reflexivity.
Defined.

(** A save with [X] selected brackets the flag; a save with the empty
    string selected does nothing. *)
Lemma loading_flag_is_bracketed_witness :
  brackets_loading
    (handleSaveConfig JSON.parse (backend ["X"] 200) "ClassPlans" (Some "X") doc_a1)
  /\ handleSaveConfig JSON.parse (backend ["X"] 200) "ClassPlans" (Some "") doc_a1
       initialState
     = mkRun (Normal tt) initialState [].
Proof.
  split.
  - destruct (loading_flag_is_bracketed JSON.parse (backend ["X"] 200)
                "ClassPlans" "X" (Some "X") doc_a1) as [_ [_ [H _]]].
    apply H. reflexivity.
  - destruct (loading_flag_is_bracketed JSON.parse (backend ["X"] 200)
                "ClassPlans" "X" (Some "") doc_a1) as [_ [_ [_ [H _]]]].
    apply H. reflexivity.
Defined.

(** A save with nothing selected does not raise the loading flag, and when
    the flag is up because a fetch is under way the save leaves it up. *)
Lemma save_without_selection_skips_loading :
  ~ brackets_loading
      (handleSaveConfig JSON.parse (backend [] 200) "ClassPlans" None doc_a1)
  /\ loading (final (handleSaveConfig JSON.parse (backend [] 200) "ClassPlans" None
                       doc_a1 (apply_update (setLoading true) initialState)))
     = true.
Proof.
  split; [|reflexivity].
  intros H. destruct (H initialState) as [[rest Hrest] _].
  vm_compute in Hrest. discriminate Hrest.
Qed.

(** Mounting against a backend that lists [X] and [Y]. *)
Lemma loaded_names_select_first_witness :
  names_loaded "ClassPlans" ["X"; "Y"]
    (mount (backend ["X"; "Y"] 200)).
Proof.
  apply (loaded_names_select_first JSON.parse (backend ["X"; "Y"] 200)).
  - apply load_on_mount. reflexivity.
  - reflexivity.
Defined.

(** A name list whose first name is the empty string is not empty, yet the
    only request is the one for the names: no content fetch follows. *)
Lemma empty_first_name_is_not_fetched :
  name_load JSON.parse (backend [""] 200) "ClassPlans" (mount (backend [""] 200))
  /\ fulfilled (get_names (backend [""] 200) "/api/v1/panel/ClassPlans") = Some [""]
  /\ (exists h' t,
        mount (backend [""] 200) = Some (h', t)
        /\ selectedConfigName (cells h') = Some ""
        /\ requests t = [GET "/api/v1/panel/ClassPlans"])
  /\ ~ names_loaded_spec "ClassPlans" [""] (mount (backend [""] 200)).
Proof.
  split; [apply load_on_mount; reflexivity|]. split; [reflexivity|]. split.
  - eexists. eexists. split; [vm_compute; reflexivity|]. split; reflexivity.
  - intros [h' [t [Hm [_ [_ Hq]]]]].
    vm_compute in Hm. injection Hm as <- <-. vm_compute in Hq.
    destruct Hq as [Hq|[]]. discriminate Hq.
Qed.

(** A name list that comes back unparsable, on a page with [X] selected
    among [X] and [Y], and on mounting. *)
Lemma failed_names_reset_selection_witness :
  (configNames (final (fetchConfigNames garbled_backend "ClassPlans" (cells busy_page))) = []
   /\ selectedConfigName
        (final (fetchConfigNames garbled_backend "ClassPlans" (cells busy_page))) = None
   /\ notification (final (fetchConfigNames garbled_backend "ClassPlans" (cells busy_page)))
      = Some ("获取配置文件列表失败", Severity.error))
  /\ exists h' t,
       mount garbled_backend = Some (h', t)
       /\ configNames (cells h') = []
       /\ selectedConfigName (cells h') = None
       /\ notification (cells h') = Some ("获取配置文件列表失败", Severity.error)
       /\ requests t = [GET "/api/v1/panel/ClassPlans"]
       /\ settled garbled_backend h'.
Proof.
  destruct (failed_names_reset_selection JSON.parse garbled_backend "ClassPlans"
              (cells busy_page) (mount garbled_backend))
    as [[H1 [H2 [H3 _]]] Hm].
  - right. left. reflexivity.
  - split; [auto|]. apply Hm. apply load_on_mount. reflexivity.
Defined.


(** An open notification: a clickaway leaves it open, the timer closes it
    at 3000. *)
Lemma snackbar_close_ignores_clickaway_witness :
  handleSnackbarClose (Some "clickaway") (apply_update (setSnackbarOpen true) initialState)
  = mkRun (Normal tt) (apply_update (setSnackbarOpen true) initialState) []
  /\ snackbarOpen
       (final (snackbar_timer (snackbar (apply_update (setSnackbarOpen true) initialState))
                 3000 (apply_update (setSnackbarOpen true) initialState)))
     = false.
Proof.
  destruct (snackbar_close_ignores_clickaway (Some "clickaway")
              (apply_update (setSnackbarOpen true) initialState) 3000)
    as [H1 [_ [_ [H4 _]]]].
  split.
  - apply H1. reflexivity.
  - apply H4; [reflexivity | lia].
Defined.

(** * Further properties of the page *)

(** ** What the fetches, the content effect and a save leave alone *)

Lemma preserves_ret (P : ViewState -> Prop) : preserves P (ret tt).
Proof. intros s Hs. exact Hs. Qed.

Lemma preserves_bind (P : ViewState -> Prop) (m k : M unit) :
  preserves P m -> preserves P k -> preserves P (m ;; k).
Proof.
  intros Hm Hk s Hs. unfold bind.
  pose proof (Hm s Hs) as H1.
  destruct (m s) as [[[]|e] s1 t1]; cbn [final] in *.
  - pose proof (Hk s1 H1) as H2. destruct (k s1) as [c s2 t2]. exact H2.
  - exact H1.
Qed.

Lemma preserves_detached (P : ViewState -> Prop) (m : M unit) :
  preserves P m -> preserves P (detached m).
Proof.
  intros Hm s Hs. rewrite (proj1 (detached_run m s)). apply Hm, Hs.
Qed.

Section Footprints.

Variable JSON_parse : string -> option Json.
Variable apiClient : ApiClient.

(** The name fetch: one request; the tab, the content and the edit mode
    stay; the flag ends lowered; an open notification stays open. *)
Lemma names_fetch_footprint (resourceType : string) (s : ViewState) :
  requests (trace (fetchConfigNames apiClient resourceType s)) = [GET (panel_url resourceType)]
  /\ tabValue (final (fetchConfigNames apiClient resourceType s)) = tabValue s
  /\ configContent (final (fetchConfigNames apiClient resourceType s)) = configContent s
  /\ isEditing (final (fetchConfigNames apiClient resourceType s)) = isEditing s
  /\ loading (final (fetchConfigNames apiClient resourceType s)) = false
  /\ (snackbarOpen s = true ->
      snackbarOpen (final (fetchConfigNames apiClient resourceType s)) = true).
Proof.
  destruct (fulfilled (get_names apiClient (panel_url resourceType))) as [data|] eqn:Hr.
  - rewrite (names_fulfilled apiClient resourceType s data Hr). cbn. auto 10.
  - rewrite (names_rejected apiClient resourceType s Hr). cbn. auto 10.
Qed.

(** The content fetch: one request; the tab, the names, the selection and
    the edit mode stay; the flag ends lowered; an open notification stays
    open. *)
Lemma content_fetch_footprint (resourceType name : string) (s : ViewState) :
  requests (trace (fetchConfigContent apiClient resourceType name s))
  = [GET (client_url resourceType name)]
  /\ tabValue (final (fetchConfigContent apiClient resourceType name s)) = tabValue s
  /\ configNames (final (fetchConfigContent apiClient resourceType name s)) = configNames s
  /\ selectedConfigName (final (fetchConfigContent apiClient resourceType name s))
     = selectedConfigName s
  /\ isEditing (final (fetchConfigContent apiClient resourceType name s)) = isEditing s
  /\ loading (final (fetchConfigContent apiClient resourceType name s)) = false
  /\ (snackbarOpen s = true ->
      snackbarOpen (final (fetchConfigContent apiClient resourceType name s)) = true).
Proof.
  destruct (fulfilled (get_content apiClient (client_url resourceType name)))
    as [data|] eqn:Hr.
  - rewrite (content_fulfilled apiClient resourceType name s data Hr). cbn. auto 10.
  - rewrite (content_rejected apiClient resourceType name s Hr). cbn. auto 10.
Qed.

(** The content effect: a request exactly when the selection is a
    non-empty name. *)
Lemma content_effect_footprint (resourceType : string) (name : option string)
    (s : ViewState) :
  requests (trace (content_effect apiClient resourceType name s))
  = (if truthy_name name then [GET (client_url resourceType (template name))] else [])
  /\ tabValue (final (content_effect apiClient resourceType name s)) = tabValue s
  /\ configNames (final (content_effect apiClient resourceType name s)) = configNames s
  /\ selectedConfigName (final (content_effect apiClient resourceType name s))
     = selectedConfigName s
  /\ isEditing (final (content_effect apiClient resourceType name s)) = isEditing s
  /\ (loading s = false ->
      loading (final (content_effect apiClient resourceType name s)) = false)
  /\ (snackbarOpen s = true ->
      snackbarOpen (final (content_effect apiClient resourceType name s)) = true).
Proof.
  unfold content_effect, truthy_name, template.
  destruct name as [n|]; [destruct (JsString.truthy n)|]; try (cbn; auto 10; fail).
  destruct (detached_run (fetchConfigContent apiClient resourceType n) s) as [Hf Ht].
  rewrite Hf, Ht.
  destruct (content_fetch_footprint resourceType n s) as [H1 [H2 [H3 [H4 [H5 [H6 H7]]]]]].
  auto 10.
Qed.

(** A save: at most the one POST; the tab, the names, the selection and
    the content stay; a lowered flag ends lowered; an open notification
    stays open. *)
Lemma save_footprint (category : string) (name : option string) (content : string)
    (s : ViewState) :
  requests (trace (handleSaveConfig JSON_parse apiClient category name content s))
  = match JSON_parse content with
    | Some v =>
        if truthy_name name
        then [POST (resources_url category name) (JObject [("content", v)])]
        else []
    | None => []
    end
  /\ edited (final (handleSaveConfig JSON_parse apiClient category name content s))
     = (tabValue s, configNames s, selectedConfigName s, configContent s,
        isEditing (final (handleSaveConfig JSON_parse apiClient category name content s)))
  /\ (loading s = false ->
      loading (final (handleSaveConfig JSON_parse apiClient category name content s)) = false)
  /\ (snackbarOpen s = true ->
      snackbarOpen (final (handleSaveConfig JSON_parse apiClient category name content s))
      = true).
Proof.
  destruct (truthy_name name) eqn:Hn.
  - destruct (JSON_parse content) as [v|] eqn:Hp.
    + destruct (fulfilled (post apiClient (resources_url category name)
                             (JObject [("content", v)]))) as [u|] eqn:Hr.
      * rewrite (save_fulfilled JSON_parse apiClient category name content s v u Hn Hp Hr).
        cbn. auto.
      * rewrite (save_rejected JSON_parse apiClient category name content s v Hn Hp Hr).
        cbn. auto.
    + rewrite (save_unparsable JSON_parse apiClient category name content s Hn Hp).
      cbn. auto.
  - rewrite (save_falsy JSON_parse apiClient category name content s Hn).
    destruct (JSON_parse content); cbn; auto.
Qed.

End Footprints.

(** ** What renders and events keep *)

Section Keeping.

Variable JSON_parse : string -> option Json.
Variable apiClient : ApiClient.

(** A property both fetch paths keep is kept by a render pass, by a commit
    and by an event whose handler keeps it. *)
Lemma render_pass_preserves (P : ViewState -> Prop) (h h' : Hooks) (t : list Effect) :
  (forall c, preserves P (fetchConfigNames apiClient c)) ->
  (forall c name, preserves P (content_effect apiClient c name)) ->
  render_pass apiClient h = Some (h', t) ->
  P (cells h) -> P (cells h').
Proof.
  intros Hn Hc. unfold render_pass.
  destruct (currentResourceType (tabValue (cells h))) as [c|]; [|discriminate].
  intros H Hs. injection H as <- _. cbn [cells].
  apply preserves_bind; [| |exact Hs].
  - destruct (names_due h c); [apply preserves_detached, Hn | apply preserves_ret].
  - destruct (content_due h c); [apply Hc | apply preserves_ret].
Qed.

Lemma commit_preserves (P : ViewState -> Prop) (h h' : Hooks) (t : list Effect) :
  (forall c, preserves P (fetchConfigNames apiClient c)) ->
  (forall c name, preserves P (content_effect apiClient c name)) ->
  commit apiClient h = Some (h', t) ->
  P (cells h) -> P (cells h').
Proof.
  intros Hn Hc. unfold commit.
  destruct (render_pass apiClient h) as [[h1 t1]|] eqn:H1; [|discriminate].
  destruct (render_pass apiClient h1) as [[h2 t2]|] eqn:H2; [|discriminate].
  intros H Hs. injection H as <- _.
  apply (render_pass_preserves P h1 h2 t2 Hn Hc H2).
  apply (render_pass_preserves P h h1 t1 Hn Hc H1). exact Hs.
Qed.

(** An event is its handler followed by a commit. *)
Lemma dispatch_unfold (h : Hooks) (ev : Event) (category : string) :
  currentResourceType (tabValue (cells h)) = Some category ->
  dispatch JSON_parse apiClient h ev
  = match commit apiClient
            (mkHooks (final (handler JSON_parse apiClient category (cells h) ev (cells h)))
               (names_deps h) (content_deps h)) with
    | Some (h', t) =>
        Some (h', (trace (handler JSON_parse apiClient category (cells h) ev (cells h))
                     ++ t)%list)
    | None => None
    end.
Proof.
  intros Hc. unfold dispatch. rewrite Hc. reflexivity.
Qed.

Lemma dispatch_preserves (P : ViewState -> Prop) (h h' : Hooks) (ev : Event)
    (t : list Effect) :
  (forall c, preserves P (fetchConfigNames apiClient c)) ->
  (forall c name, preserves P (content_effect apiClient c name)) ->
  (forall c, preserves P (handler JSON_parse apiClient c (cells h) ev)) ->
  dispatch JSON_parse apiClient h ev = Some (h', t) ->
  P (cells h) -> P (cells h').
Proof.
  intros Hn Hc Hh Hd Hs. unfold dispatch in Hd.
  destruct (currentResourceType (tabValue (cells h))) as [c|]; [|discriminate].
  destruct (commit apiClient _) as [[h2 t2]|] eqn:Hcm; [|discriminate].
  injection Hd as <- _.
  apply (commit_preserves P _ _ _ Hn Hc Hcm). cbn [cells]. apply Hh, Hs.
Qed.

(** The three properties the fetch paths keep. *)
Lemma fetches_keep_loading_down :
  (forall c, preserves (fun s => loading s = false) (fetchConfigNames apiClient c))
  /\ (forall c name, preserves (fun s => loading s = false)
                       (content_effect apiClient c name)).
Proof.
  split.
  - intros c s _. apply (names_fetch_footprint apiClient c s).
  - intros c name s Hs. apply (content_effect_footprint apiClient c name s), Hs.
Qed.

Lemma fetches_keep_snackbar_open :
  (forall c, preserves (fun s => snackbarOpen s = true) (fetchConfigNames apiClient c))
  /\ (forall c name, preserves (fun s => snackbarOpen s = true)
                       (content_effect apiClient c name)).
Proof.
  split.
  - intros c s Hs. apply (names_fetch_footprint apiClient c s), Hs.
  - intros c name s Hs. apply (content_effect_footprint apiClient c name s), Hs.
Qed.

Lemma fetches_keep_edit_mode (b : bool) :
  (forall c, preserves (fun s => isEditing s = b) (fetchConfigNames apiClient c))
  /\ (forall c name, preserves (fun s => isEditing s = b)
                       (content_effect apiClient c name)).
Proof.
  split.
  - intros c s Hs. destruct (names_fetch_footprint apiClient c s) as [_ [_ [_ [H _]]]].
    now rewrite H.
  - intros c name s Hs.
    destruct (content_effect_footprint apiClient c name s) as [_ [_ [_ [_ [H _]]]]].
    now rewrite H.
Qed.

Lemma fetches_keep_tab (i : nat) :
  (forall c, preserves (fun s => tabValue s = i) (fetchConfigNames apiClient c))
  /\ (forall c name, preserves (fun s => tabValue s = i)
                       (content_effect apiClient c name)).
Proof.
  split.
  - intros c s Hs. destruct (names_fetch_footprint apiClient c s) as [_ [H _]].
    now rewrite H.
  - intros c name s Hs.
    destruct (content_effect_footprint apiClient c name s) as [_ [H _]].
    now rewrite H.
Qed.

(** A commit in which only the content effect is due: it runs once, and the
    render after it finds nothing to do. *)
Lemma commit_content_due (h : Hooks) (category : string) :
  currentResourceType (tabValue (cells h)) = Some category ->
  names_deps h = Some (tabValue (cells h), category) ->
  content_due h category = true ->
  commit apiClient h
  = Some (mkHooks
            (final (content_effect apiClient category (selectedConfigName (cells h))
                      (cells h)))
            (Some (tabValue (cells h), category))
            (Some (selectedConfigName (cells h), category)),
          trace (content_effect apiClient category (selectedConfigName (cells h))
                   (cells h))).
Proof.
  intros Hc Hn Hd.
  destruct (content_effect_footprint apiClient category (selectedConfigName (cells h))
              (cells h)) as [_ [Ht [_ [Hs _]]]].
  assert (H1 : render_pass apiClient h
               = Some (mkHooks
                         (final (content_effect apiClient category
                                   (selectedConfigName (cells h)) (cells h)))
                         (Some (tabValue (cells h), category))
                         (Some (selectedConfigName (cells h), category)),
                       trace (content_effect apiClient category
                                (selectedConfigName (cells h)) (cells h)))).
  { unfold render_pass. rewrite Hc, Hd. unfold names_due. rewrite Hn.
    rewrite Nat.eqb_refl, String.eqb_refl. cbn [andb negb]. unfold bind, ret.
    destruct (content_effect apiClient category (selectedConfigName (cells h)) (cells h))
      as [c s2 t2]. reflexivity. }
  unfold commit. rewrite H1.
  match goal with
  | |- context [render_pass apiClient ?h1] =>
      assert (H2 : settled apiClient h1)
  end.
  { apply settled_iff. exists category. cbn [cells names_deps content_deps].
    rewrite Ht, Hs. auto. }
  rewrite H2. now rewrite app_nil_r.
Qed.

End Keeping.

(** ** Tabs *)

Section Tabs.

Variable JSON_parse : string -> option Json.
Variable apiClient : ApiClient.

(** Entering a category, whatever the backend answers: the names are
    requested first, at most one content request follows, the tab and the
    edit mode stay, the flag ends lowered and no effect is left waiting. *)
Lemma entering_summary (h : Hooks) (category : string) :
  currentResourceType (tabValue (cells h)) = Some category ->
  names_due h category = true ->
  content_due h category = true ->
  selectedConfigName (cells h) = None ->
  exists h' t,
    commit apiClient h = Some (h', t)
    /\ tabValue (cells h') = tabValue (cells h)
    /\ isEditing (cells h') = isEditing (cells h)
    /\ loading (cells h') = false
    /\ (exists rest,
          requests t = GET ("/api/v1/panel/" ++ category) :: rest
          /\ List.length rest <= 1)
    /\ settled apiClient h'.
Proof.
  intros Hc Hn Hd Hs.
  assert (Hex : exists h' t,
             commit apiClient h = Some (h', t)
             /\ exists rest,
                  requests t = GET ("/api/v1/panel/" ++ category) :: rest
                  /\ List.length rest <= 1).
  { destruct (fulfilled (get_names apiClient (panel_url category))) as [L|] eqn:Hr.
    - destruct (entering_loads_names apiClient h category L Hc Hn Hd Hs Hr)
        as [h' [t [Hcm [_ [_ Hcases]]]]].
      exists h', t. split; [exact Hcm|].
      destruct L as [|first rest0].
      + destruct Hcases as [_ [_ Hq]]. exists []. split; [exact Hq | cbn; lia].
      + destruct Hcases as [_ Hq]. destruct (JsString.truthy first).
        * eexists. split; [exact Hq | cbn; lia].
        * destruct Hq as [_ Hq]. exists []. split; [exact Hq | cbn; lia].
    - destruct (entering_fails_names apiClient h category Hc Hn Hd Hs Hr)
        as [h' [t [Hcm [_ [_ [_ [Hq _]]]]]]].
      exists h', t. split; [exact Hcm|]. exists []. split; [exact Hq | cbn; lia]. }
  destruct Hex as [h' [t [Hcm Hreq]]]. exists h', t.
  split; [exact Hcm|].
  split; [exact (commit_preserves apiClient (fun s => tabValue s = tabValue (cells h))
                   h h' t (proj1 (fetches_keep_tab apiClient _))
                   (proj2 (fetches_keep_tab apiClient _)) Hcm eq_refl)|].
  split; [exact (commit_preserves apiClient (fun s => isEditing s = isEditing (cells h))
                   h h' t (proj1 (fetches_keep_edit_mode apiClient _))
                   (proj2 (fetches_keep_edit_mode apiClient _)) Hcm eq_refl)|].
  split; [|split; [exact Hreq | exact (commit_settles apiClient h h' t Hcm)]].
  unfold commit in Hcm. rewrite (entering_pass apiClient h category Hc Hn Hd Hs) in Hcm.
  match type of Hcm with
  | context [render_pass apiClient ?h1] =>
      destruct (render_pass apiClient h1) as [[h2 t2]|] eqn:H2; [|discriminate];
      injection Hcm as <- _;
      apply (render_pass_preserves apiClient (fun s => loading s = false) h1 h2 t2
               (proj1 (fetches_keep_loading_down apiClient))
               (proj2 (fetches_keep_loading_down apiClient)) H2)
  end.
  cbn [cells apply_update loading].
  apply (names_fetch_footprint apiClient category (cells h)).
Qed.

(** X1: selecting another tab of the table on a settled page makes it the
    active tab and loads its category: the names are requested first and at
    most one content request follows; the edit mode is not reset; once the
    replies are in, the loading flag is down and no effect is waiting. *)
Theorem tab_change_loads_category (h : Hooks) (i : nat) (category : string) :
  settled apiClient h ->
  i <> tabValue (cells h) ->
  currentResourceType i = Some category ->
  exists h' t,
    dispatch JSON_parse apiClient h (TabChange i) = Some (h', t)
    /\ tabValue (cells h') = i
    /\ isEditing (cells h') = isEditing (cells h)
    /\ loading (cells h') = false
    /\ (exists rest,
          requests t = GET ("/api/v1/panel/" ++ category) :: rest
          /\ List.length rest <= 1)
    /\ settled apiClient h'.
Proof.
  intros Hs Hi Hc.
  destruct (tab_change_enters JSON_parse apiClient h i category Hs Hi Hc)
    as [Hd [H1 [H2 [H3 H4]]]].
  destruct (entering_summary _ category H1 H2 H3 H4)
    as [h' [t [Hcm [Ht [He [Hl [Hq Hst]]]]]]].
  rewrite Hcm in Hd. exists h'. eexists. split; [exact Hd|].
  rewrite requests_app. cbn [requests app]. auto 10.
Qed.

(** X13: against a backend whose name replies have the shape the page
    declares for them (a list of strings), mounting goes through whatever
    the names, the statuses and the failures are: the page comes up on the
    first tab, out of edit mode, with the names of [ClassPlans] requested
    first and at most one content request after it, the loading flag down
    and no effect waiting. *)
Theorem mount_loads_first_category :
  exists h t,
    mount apiClient = Some (h, t)
    /\ tabValue (cells h) = 0
    /\ isEditing (cells h) = false
    /\ loading (cells h) = false
    /\ (exists rest,
          requests t = GET "/api/v1/panel/ClassPlans" :: rest /\ List.length rest <= 1)
    /\ settled apiClient h.
Proof.
  exact (entering_summary (mkHooks initialState None None) "ClassPlans"
           eq_refl eq_refl eq_refl eq_refl).
Qed.

(** X2: a call of [handleTabChange] with the index that is already active
    (a call the rendered tabs do not make: they report a change only for
    another tab) requests nothing: the names stay listed, the selection is
    dropped, and the content is cleared if there was a selection. *)
Theorem reselecting_tab_deselects (h : Hooks) :
  settled apiClient h ->
  exists h' t,
    dispatch JSON_parse apiClient h (TabChange (tabValue (cells h))) = Some (h', t)
    /\ requests t = []
    /\ tabValue (cells h') = tabValue (cells h)
    /\ configNames (cells h') = configNames (cells h)
    /\ selectedConfigName (cells h') = None
    /\ isEditing (cells h') = isEditing (cells h)
    /\ configContent (cells h')
       = match selectedConfigName (cells h) with
         | Some _ => ""
         | None => configContent (cells h)
         end
    /\ settled apiClient h'.
Proof.
  intros Hs.
  destruct (proj1 (settled_iff apiClient h) Hs) as [c [Hc [Hnd Hcd]]].
  rewrite (dispatch_unfold JSON_parse apiClient h _ c Hc).
  cbn [handler]. unfold handleTabChange, bind, set. cbn [final trace apply_update
    tabValue configNames selectedConfigName configContent loading snackbarOpen
    snackbarMessage snackbarSeverity isEditing app].
  destruct (selectedConfigName (cells h)) as [x|] eqn:Hx.
  - match goal with
    | |- context [commit apiClient ?h0] =>
        pose proof (commit_content_due apiClient h0 c) as Hcm
    end.
    cbn [cells names_deps content_deps tabValue selectedConfigName] in Hcm.
    rewrite (Hcm Hc Hnd) by (unfold content_due; rewrite Hcd; reflexivity).
    clear Hcm. unfold content_effect, set. cbn [final trace apply_update
      tabValue configNames selectedConfigName configContent loading snackbarOpen
      snackbarMessage snackbarSeverity isEditing].
    eexists. eexists. split; [reflexivity|].
    cbn. repeat split.
    apply settled_iff. exists c. cbn. auto.
  - match goal with
    | |- context [commit apiClient ?h0] =>
        assert (Hst : settled apiClient h0)
    end.
    { apply settled_iff. exists c. cbn. auto. }
    rewrite (settled_commit apiClient _ Hst).
    eexists. eexists. split; [reflexivity|].
    cbn. repeat split. exact Hst.
Qed.

(** X3: on a settled page a tab change goes through exactly when the new
    index is one of the five of the table; any other index makes the next
    render throw. *)
Theorem tab_change_defined_iff (h : Hooks) (i : nat) :
  settled apiClient h ->
  (exists result, dispatch JSON_parse apiClient h (TabChange i) = Some result) <-> i < 5.
Proof.
  intros Hs.
  destruct (proj1 (settled_iff apiClient h) Hs) as [c [Hc _]].
  rewrite (dispatch_unfold JSON_parse apiClient h _ c Hc).
  cbn [handler]. unfold handleTabChange, bind, set. cbn [final trace apply_update].
  split.
  - intros [result H]. unfold commit, render_pass in H.
    cbn [cells tabValue] in H.
    destruct (currentResourceType i) as [ci|] eqn:Hi; [|discriminate].
    unfold currentResourceType in Hi.
    destruct (nth_error resourceTypes i) eqn:Hn; [|discriminate].
    apply (proj1 (nth_error_Some resourceTypes i)). congruence.
  - intros Hi.
    match goal with
    | |- context [commit apiClient ?h0] =>
        destruct (commit_defined apiClient h0 Hi) as [h' [t Hcm]]
    end.
    rewrite Hcm. eexists. reflexivity.
Qed.

End Tabs.

(** ** Events that change neither the tab nor the names *)

Lemma same_name_true (a b : option string) : same_name a b = true -> a = b.
Proof.
  destruct a as [x|], b as [y|]; cbn; intros H; try discriminate; try reflexivity.
  apply String.eqb_eq in H. now subst.
Qed.

Section Selecting.

Variable JSON_parse : string -> option Json.
Variable apiClient : ApiClient.

(** A commit on a page whose names are loaded for the current tab: the
    content effect runs if the selection differs from the one it last saw,
    and requests the content if that selection is a non-empty name;
    nothing else happens. *)
Lemma content_only_commit (h : Hooks) (category : string) :
  currentResourceType (tabValue (cells h)) = Some category ->
  names_deps h = Some (tabValue (cells h), category) ->
  (exists seen, content_deps h = Some (seen, category)) ->
  exists h' t,
    commit apiClient h = Some (h', t)
    /\ requests t
       = (if content_due h category && truthy_name (selectedConfigName (cells h))
          then [GET (client_url category (template (selectedConfigName (cells h))))]
          else [])
    /\ tabValue (cells h') = tabValue (cells h)
    /\ configNames (cells h') = configNames (cells h)
    /\ selectedConfigName (cells h') = selectedConfigName (cells h)
    /\ isEditing (cells h') = isEditing (cells h)
    /\ (content_due h category = false -> h' = h)
    /\ (content_due h category = true ->
        cells h' = final (content_effect apiClient category (selectedConfigName (cells h))
                            (cells h)))
    /\ settled apiClient h'.
Proof.
  intros Hc Hn [seen Hd].
  destruct (content_due h category) eqn:Hdue.
  - pose proof (commit_content_due apiClient h category Hc Hn Hdue) as Hcm.
    destruct (content_effect_footprint apiClient category (selectedConfigName (cells h))
                (cells h)) as [Hq [Ht [Hnames [Hs [He _]]]]].
    eexists. eexists. split; [exact Hcm|]. cbn [cells andb].
    repeat split; try assumption; try discriminate.
    apply settled_iff. exists category. cbn [cells names_deps content_deps].
    rewrite Ht, Hs. auto.
  - assert (Hst : settled apiClient h).
    { apply settled_iff. exists category. split; [exact Hc|]. split; [exact Hn|].
      unfold content_due in Hdue. rewrite Hd in Hdue.
      apply negb_false_iff, andb_true_iff in Hdue. destruct Hdue as [H1 _].
      apply same_name_true in H1. now subst seen. }
    exists h, []. rewrite (settled_commit apiClient h Hst).
    repeat split; try reflexivity; try assumption. discriminate.
Qed.

(** On a settled page, an event whose handler leaves the tab and the
    selection alone is its handler and nothing more. *)
Lemma dispatch_without_effects (h : Hooks) (ev : Event) (category : string) :
  settled apiClient h ->
  currentResourceType (tabValue (cells h)) = Some category ->
  tabValue (final (handler JSON_parse apiClient category (cells h) ev (cells h)))
  = tabValue (cells h) ->
  selectedConfigName (final (handler JSON_parse apiClient category (cells h) ev (cells h)))
  = selectedConfigName (cells h) ->
  dispatch JSON_parse apiClient h ev
  = Some (mkHooks (final (handler JSON_parse apiClient category (cells h) ev (cells h)))
            (names_deps h) (content_deps h),
          trace (handler JSON_parse apiClient category (cells h) ev (cells h))).
Proof.
  intros Hs Hc Ht Hn.
  rewrite (dispatch_unfold JSON_parse apiClient h ev category Hc).
  rewrite (settled_commit apiClient _ (settled_frame apiClient h _ Hs Ht Hn)).
  now rewrite app_nil_r.
Qed.

(** The page after a click on a name, before the commit. *)
Lemma click_commit (h : Hooks) (name category : string) :
  settled apiClient h ->
  currentResourceType (tabValue (cells h)) = Some category ->
  exists h0,
    h0 = mkHooks (mkViewState (tabValue (cells h)) (configNames (cells h)) (Some name)
                    (configContent (cells h)) (loading (cells h)) (snackbarOpen (cells h))
                    (snackbarMessage (cells h)) (snackbarSeverity (cells h)) false)
           (names_deps h) (content_deps h)
    /\ dispatch JSON_parse apiClient h (ConfigNameClick name)
       = match commit apiClient h0 with
         | Some (h', t) =>
             Some (h', ([Set_ (setSelectedConfigName (Some name)); Set_ (setIsEditing false)]
                          ++ t)%list)
         | None => None
         end
    /\ names_deps h0 = Some (tabValue (cells h0), category)
    /\ content_deps h0 = Some (selectedConfigName (cells h), category)
    /\ content_due h0 category = negb (same_name (selectedConfigName (cells h)) (Some name)).
Proof.
  intros Hs Hc.
  destruct (proj1 (settled_iff apiClient h) Hs) as [c [Hc' [Hnd Hcd]]].
  assert (c = category) by congruence. subst c.
  eexists. split; [reflexivity|].
  split; [exact (dispatch_unfold JSON_parse apiClient h _ category Hc)|].
  split; [exact Hnd|]. split; [exact Hcd|].
  unfold content_due. cbn [content_deps cells selectedConfigName]. rewrite Hcd.
  now rewrite String.eqb_refl, andb_true_r.
Qed.


(** X5: on a settled page, a click on the name that is already selected
    sends no request and does not touch the content: the only change is
    that edit mode is left, with the text typed so far still in the
    editor. *)
Theorem click_on_selected_name_keeps_content (h : Hooks) (name : string) :
  settled apiClient h ->
  selectedConfigName (cells h) = Some name ->
  exists h' t,
    dispatch JSON_parse apiClient h (ConfigNameClick name) = Some (h', t)
    /\ requests t = []
    /\ cells h' = apply_update (setIsEditing false) (cells h)
    /\ settled apiClient h'.
Proof.
  intros Hs Hx.
  destruct (proj1 (settled_iff apiClient h) Hs) as [category [Hc _]].
  assert (Hsel : selectedConfigName
                   (final (handler JSON_parse apiClient category (cells h)
                             (ConfigNameClick name) (cells h)))
                 = selectedConfigName (cells h)) by (rewrite Hx; reflexivity).
  rewrite (dispatch_without_effects h (ConfigNameClick name) category Hs Hc eq_refl Hsel).
  eexists. eexists. split; [reflexivity|].
  split; [reflexivity|]. split.
  - cbn. rewrite Hx. reflexivity.
  - exact (settled_frame apiClient h
             (final (handler JSON_parse apiClient category (cells h)
                       (ConfigNameClick name) (cells h))) Hs eq_refl Hsel).
Qed.

(** X6: on a settled page, a click on a name that is the empty string (and
    is not the selection already) selects it but counts as no selection for
    the content: the editor is cleared and no request is sent. *)
Theorem click_on_empty_name_clears_content (h : Hooks) :
  settled apiClient h ->
  selectedConfigName (cells h) <> Some "" ->
  exists h' t,
    dispatch JSON_parse apiClient h (ConfigNameClick "") = Some (h', t)
    /\ requests t = []
    /\ selectedConfigName (cells h') = Some ""
    /\ configContent (cells h') = ""
    /\ isEditing (cells h') = false
    /\ tabValue (cells h') = tabValue (cells h)
    /\ configNames (cells h') = configNames (cells h)
    /\ settled apiClient h'.
Proof.
  intros Hs Hx.
  destruct (proj1 (settled_iff apiClient h) Hs) as [category [Hc _]].
  destruct (click_commit h "" category Hs Hc) as [h0 [Hh0 [Hd [Hnd [Hcd Hdue]]]]].
  assert (Hdue' : content_due h0 category = true).
  { rewrite Hdue. apply negb_true_iff.
    destruct (same_name (selectedConfigName (cells h)) (Some "")) eqn:E; [|reflexivity].
    apply same_name_true in E. contradiction. }
  assert (Hc0 : currentResourceType (tabValue (cells h0)) = Some category)
    by (subst h0; exact Hc).
  destruct (content_only_commit h0 category Hc0 Hnd (ex_intro _ _ Hcd))
    as [h' [t [Hcm [Hq [Htab [Hnames [Hsel [Hed [_ [Hcells Hst]]]]]]]]]].
  rewrite Hcm in Hd. exists h'. eexists. split; [exact Hd|].
  specialize (Hcells Hdue'). rewrite Hdue' in Hq.
  subst h0. cbn [cells tabValue configNames selectedConfigName isEditing] in *.
  cbn in Hq. rewrite requests_app. cbn [requests app].
  rewrite Hcells. cbn. auto 10.
Qed.

End Selecting.

(** ** Saving, the stub buttons and the notification *)

Section Quiet.

Variable JSON_parse : string -> option Json.
Variable apiClient : ApiClient.

(** The handlers other than the two that select keep the tab, the names
    and the selection. *)
Lemma handler_keeps_selection (category : string) (s0 s : ViewState) (ev : Event) :
  (forall i, ev <> TabChange i) ->
  (forall name, ev <> ConfigNameClick name) ->
  tabValue (final (handler JSON_parse apiClient category s0 ev s)) = tabValue s
  /\ configNames (final (handler JSON_parse apiClient category s0 ev s)) = configNames s
  /\ selectedConfigName (final (handler JSON_parse apiClient category s0 ev s))
     = selectedConfigName s.
Proof.
  intros Ht Hn. destruct ev; cbn [handler].
  - now destruct (Ht newValue).
  - now destruct (Hn name).
  - cbn. auto.
  - rewrite (proj1 (detached_run _ _)).
    destruct (save_footprint JSON_parse apiClient category (selectedConfigName s0)
                content s) as [_ [He _]].
    unfold edited in He. injection He as H1 H2 H3 _. auto.
  - cbn. auto.
  - unfold handleSnackbarClose.
    destruct (match reason with Some r => (r =? "clickaway")%string | None => false end);
      cbn; auto.
  - cbn. auto.
  - unfold handleDeleteConfig. destruct (truthy_name (selectedConfigName s0)); cbn; auto.
Qed.

(** On a settled page such an event keeps them, too: no effect follows
    its handler. *)
Lemma dispatch_keeps_selection (h h' : Hooks) (ev : Event) (t : list Effect) :
  settled apiClient h ->
  (forall i, ev <> TabChange i) ->
  (forall name, ev <> ConfigNameClick name) ->
  dispatch JSON_parse apiClient h ev = Some (h', t) ->
  tabValue (cells h') = tabValue (cells h)
  /\ configNames (cells h') = configNames (cells h)
  /\ selectedConfigName (cells h') = selectedConfigName (cells h)
  /\ requests t
     = requests (trace (handler JSON_parse apiClient
                          (match currentResourceType (tabValue (cells h)) with
                           | Some c => c
                           | None => ""
                           end) (cells h) ev (cells h))).
Proof.
  intros Hs Ht Hn Hd.
  destruct (proj1 (settled_iff apiClient h) Hs) as [c [Hc _]]. rewrite Hc.
  destruct (handler_keeps_selection c (cells h) (cells h) ev Ht Hn) as [H1 [H2 H3]].
  rewrite (dispatch_without_effects JSON_parse apiClient h ev c Hs Hc H1 H3) in Hd.
  injection Hd as <- <-. cbn [cells]. auto.
Qed.

(** No handler raises the loading flag and leaves it raised. *)
Lemma handler_keeps_loading_down (category : string) (s0 : ViewState) (ev : Event) :
  preserves (fun s => loading s = false) (handler JSON_parse apiClient category s0 ev).
Proof.
  intros s Hs. destruct ev; cbn [handler]; try (cbn; exact Hs).
  - rewrite (proj1 (detached_run _ _)).
    apply (save_footprint JSON_parse apiClient category (selectedConfigName s0) content s).
    exact Hs.
  - unfold handleSnackbarClose.
    destruct (match reason with Some r => (r =? "clickaway")%string | None => false end);
      cbn; exact Hs.
  - unfold handleDeleteConfig. destruct (truthy_name (selectedConfigName s0)); cbn; exact Hs.
Qed.

(** Only the close handler closes the notification. *)
Lemma handler_keeps_snackbar_open (category : string) (s0 : ViewState) (ev : Event) :
  (forall reason, ev <> SnackbarClose reason) ->
  preserves (fun s => snackbarOpen s = true) (handler JSON_parse apiClient category s0 ev).
Proof.
  intros Hev s Hs. destruct ev; cbn [handler]; try (cbn; exact Hs).
  - rewrite (proj1 (detached_run _ _)).
    apply (save_footprint JSON_parse apiClient category (selectedConfigName s0) content s).
    exact Hs.
  - now destruct (Hev reason).
  - unfold handleDeleteConfig. destruct (truthy_name (selectedConfigName s0)); cbn; exact Hs.
Qed.

(** X12: on a settled page a save, whatever its outcome, leaves the tab,
    the names, the selection and the text in the editor as they are, sends
    nothing but its own POST (the saved content is not fetched again) and
    leaves no effect waiting. *)
Theorem save_keeps_page (h : Hooks) (content : string) :
  settled apiClient h ->
  exists h' t,
    dispatch JSON_parse apiClient h (EditorSave content) = Some (h', t)
    /\ tabValue (cells h') = tabValue (cells h)
    /\ configNames (cells h') = configNames (cells h)
    /\ selectedConfigName (cells h') = selectedConfigName (cells h)
    /\ configContent (cells h') = configContent (cells h)
    /\ List.length (requests t) <= 1
    /\ (forall r, In r (requests t) -> exists url body, r = POST url body)
    /\ settled apiClient h'.
Proof.
  intros Hs.
  destruct (proj1 (settled_iff apiClient h) Hs) as [category [Hc _]].
  pose proof (dispatch_save JSON_parse apiClient h category content Hs Hc) as Hd.
  cbv zeta in Hd.
  destruct (save_footprint JSON_parse apiClient category (selectedConfigName (cells h))
              content (cells h)) as [Hq [He _]].
  unfold edited in He. injection He as H1 H2 H3 H4.
  eexists. eexists. split; [exact Hd|]. cbn [cells].
  split; [exact H1|]. split; [exact H2|]. split; [exact H3|]. split; [exact H4|].
  rewrite Hq.
  split; [|split].
  - destruct (JSON_parse content); [destruct (truthy_name _)|]; cbn; lia.
  - intros r Hr.
    destruct (JSON_parse content); [destruct (truthy_name _)|]; cbn in Hr;
      try contradiction.
    destruct Hr as [<-|[]]. eexists. eexists. reflexivity.
  - exact (settled_frame apiClient h _ Hs H1 H3).
Qed.

(** X7: the two stub buttons change nothing and request nothing: each
    shows one alert and leaves the page as it is.  While the delete button
    is enabled its alert is the one naming the selected configuration. *)
Theorem stub_buttons_only_alert (h : Hooks) (v : View) :
  settled apiClient h ->
  render (cells h) = Some v ->
  dispatch JSON_parse apiClient h AddClick = Some (h, [Alert add_stub_text])
  /\ exists text,
       dispatch JSON_parse apiClient h DeleteClick = Some (h, [Alert text])
       /\ (delete_disabled v = false ->
           exists name,
             selectedConfigName (cells h) = Some name /\ text = delete_stub_text name).
Proof.
  intros Hs Hv.
  destruct (proj1 (settled_iff apiClient h) Hs) as [category [Hc _]].
  split.
  - rewrite (dispatch_without_effects JSON_parse apiClient h AddClick category Hs Hc
               eq_refl eq_refl).
    cbn. destruct h; reflexivity.
  - assert (Hk := handler_keeps_selection category (cells h) (cells h) DeleteClick
                    ltac:(discriminate) ltac:(discriminate)).
    destruct Hk as [Ht [_ Hn]].
    rewrite (dispatch_without_effects JSON_parse apiClient h DeleteClick category Hs Hc
               Ht Hn).
    cbn [handler]. unfold handleDeleteConfig, render in *. rewrite Hc in Hv.
    injection Hv as <-. cbn [delete_disabled].
    destruct (selectedConfigName (cells h)) as [name|] eqn:Hx; cbn [truthy_name template].
    + destruct (JsString.truthy name); cbn.
      * eexists. split; [destruct h; reflexivity|]. intros _. exists name. auto.
      * eexists. split; [destruct h; reflexivity|]. discriminate.
    + cbn. eexists. split; [destruct h; reflexivity|]. discriminate.
Qed.

(** X8: no event but a close request closes the notification: a tab
    change, a click on a name, a save, an edit, a stub button and all the
    fetches they set off leave an open notification open. *)
Theorem only_close_requests_close_notification (h h' : Hooks) (ev : Event)
    (t : list Effect) :
  (forall reason, ev <> SnackbarClose reason) ->
  snackbarOpen (cells h) = true ->
  dispatch JSON_parse apiClient h ev = Some (h', t) ->
  snackbarOpen (cells h') = true.
Proof.
  intros Hev Ho Hd.
  apply (dispatch_preserves JSON_parse apiClient (fun s => snackbarOpen s = true) h h' ev t
           (proj1 (fetches_keep_snackbar_open apiClient))
           (proj2 (fetches_keep_snackbar_open apiClient))
           (fun c => handler_keeps_snackbar_open c (cells h) ev Hev) Hd Ho).
Qed.

(** The flag is down on the mounted page. *)
Lemma mount_idle (h : Hooks) (t : list Effect) :
  mount apiClient = Some (h, t) -> loading (cells h) = false.
Proof.
  intros Hm.
  destruct (entering_summary apiClient (mkHooks initialState None None) "ClassPlans"
              eq_refl eq_refl eq_refl eq_refl) as [h' [t' [Hcm [_ [_ [Hl _]]]]]].
  unfold mount in Hm. rewrite Hcm in Hm. injection Hm as <- _. exact Hl.
Qed.

(** X9: on every page the component goes through, once the replies of the
    event's requests are in, the loading flag is down: each fetch lowers it
    at its end, also when two follow each other, and nothing else raises
    it. *)
Theorem reachable_pages_are_idle (h : Hooks) :
  reachable JSON_parse apiClient h -> loading (cells h) = false.
Proof.
  induction 1 as [h t Hm | h h' ev t _ IH Hd].
  - exact (mount_idle h t Hm).
  - apply (dispatch_preserves JSON_parse apiClient (fun s => loading s = false) h h' ev t
             (proj1 (fetches_keep_loading_down apiClient))
             (proj2 (fetches_keep_loading_down apiClient))
             (fun c => handler_keeps_loading_down c (cells h) ev) Hd IH).
Qed.

End Quiet.

(** ** The pages a user can bring about *)

Section Interface.

Variable JSON_parse : string -> option Json.
Variable apiClient : ApiClient.

Lemma render_defined (s : ViewState) (v : View) :
  render s = Some v ->
  tabValue s < 5
  /\ exists category, currentResourceType (tabValue s) = Some category.
Proof.
  unfold render. destruct (currentResourceType (tabValue s)) as [c|] eqn:Hc; [|discriminate].
  intros _. split; [|exists c; reflexivity].
  unfold currentResourceType in Hc.
  destruct (nth_error resourceTypes (tabValue s)) eqn:Hn; [|discriminate].
  apply (proj1 (nth_error_Some resourceTypes (tabValue s))). congruence.
Qed.

(** A listed name is one of [configNames]. *)
Lemma offered_click_listed (s : ViewState) (v : View) (name : string) :
  render s = Some v ->
  offered v (ConfigNameClick name) = true ->
  In name (configNames s).
Proof.
  unfold render. destruct (currentResourceType (tabValue s)); [|discriminate].
  intros H. injection H as <-. cbn [offered name_items].
  destruct (loading s && Nat.eqb (tabValue s) (tabValue s)); [discriminate|].
  intros H. apply existsb_exists in H. destruct H as [[n b] [Hin Heq]].
  apply in_map_iff in Hin. destruct Hin as [n' [Hn' Hin]].
  injection Hn' as <- _. cbn in Heq. apply String.eqb_eq in Heq. now subst.
Qed.

(** X11: every event a rendered page offers — a tab of the table, a
    listed name, the editor's callbacks, the buttons, a close request — is
    handled: the handler and the renders after it go through without a
    throw. *)
Theorem offered_events_are_handled (h : Hooks) (v : View) (ev : Event) :
  render (cells h) = Some v ->
  offered v ev = true ->
  exists h' t, dispatch JSON_parse apiClient h ev = Some (h', t).
Proof.
  intros Hv Ho.
  destruct (render_defined _ _ Hv) as [Hlt [category Hc]].
  rewrite (dispatch_unfold JSON_parse apiClient h ev category Hc).
  match goal with
  | |- context [commit apiClient ?h0] =>
      assert (Hb : tabValue (cells h0) < 5)
  end.
  { cbn [cells].
    destruct ev as [i|name| | | | | |];
      try (match goal with
           | |- tabValue (final (handler _ _ _ _ ?e _)) < 5 =>
               rewrite (proj1 (handler_keeps_selection JSON_parse apiClient category
                                 (cells h) (cells h) e
                                 ltac:(discriminate) ltac:(discriminate)));
               exact Hlt
           end).
    - unfold render in Hv. rewrite Hc in Hv. injection Hv as <-.
      cbn [offered tab_labels] in Ho. apply Nat.ltb_lt in Ho. exact Ho.
    - exact Hlt. }
  destruct (commit_defined apiClient _ Hb) as [h' [t Hcm]].
  rewrite Hcm. eexists. eexists. reflexivity.
Qed.

(** After the names were loaded on entering a category, the selection is
    one of them. *)
Lemma entering_selection_listed (h h' : Hooks) (t : list Effect) (category : string) :
  currentResourceType (tabValue (cells h)) = Some category ->
  names_due h category = true ->
  content_due h category = true ->
  selectedConfigName (cells h) = None ->
  commit apiClient h = Some (h', t) ->
  forall name, selectedConfigName (cells h') = Some name -> In name (configNames (cells h')).
Proof.
  intros Hc Hn Hd Hs Hcm name Hsel.
  destruct (fulfilled (get_names apiClient (panel_url category))) as [L|] eqn:Hr.
  - destruct (entering_loads_names apiClient h category L Hc Hn Hd Hs Hr)
      as [h2 [t2 [Hcm2 [Hnames [_ Hcases]]]]].
    rewrite Hcm in Hcm2. injection Hcm2 as <- _.
    rewrite Hnames. destruct L as [|first rest].
    + destruct Hcases as [H _]. congruence.
    + destruct Hcases as [H _]. left. congruence.
  - destruct (entering_fails_names apiClient h category Hc Hn Hd Hs Hr)
      as [h2 [t2 [Hcm2 [_ [H _]]]]].
    rewrite Hcm in Hcm2. injection Hcm2 as <- _. congruence.
Qed.

Lemma ui_reachable_settled (h : Hooks) :
  ui_reachable JSON_parse apiClient h -> settled apiClient h.
Proof.
  intros [h0 t Hm | h0 h1 v ev t _ _ _ Hd].
  - exact (commit_settles apiClient _ _ _ Hm).
  - unfold dispatch in Hd.
    destruct (currentResourceType (tabValue (cells h0))); [|discriminate].
    destruct (commit apiClient _) as [[h2 t2]|] eqn:Hc; [|discriminate].
    injection Hd as <- _. exact (commit_settles apiClient _ _ _ Hc).
Qed.

(** X10: on every page a user can bring about, the active tab is one of
    the five of the table and the selected name, if there is one, is one of
    the listed names. *)
Theorem ui_pages_are_consistent (h : Hooks) :
  ui_reachable JSON_parse apiClient h ->
  tabValue (cells h) < 5
  /\ forall name, selectedConfigName (cells h) = Some name -> In name (configNames (cells h)).
Proof.
  intros Hu. split.
  - destruct (proj1 (settled_iff apiClient h) (ui_reachable_settled h Hu)) as [c [Hc _]].
    unfold currentResourceType in Hc.
    destruct (nth_error resourceTypes (tabValue (cells h))) eqn:Hn; [|discriminate].
    apply (proj1 (nth_error_Some resourceTypes (tabValue (cells h)))). congruence.
  - induction Hu as [h t Hm | h h' v ev t Hu IH Hv Ho Hd].
    + exact (entering_selection_listed (mkHooks initialState None None) h t "ClassPlans"
               eq_refl eq_refl eq_refl eq_refl Hm).
    + pose proof (ui_reachable_settled h Hu) as Hs.
      destruct (proj1 (settled_iff apiClient h) Hs) as [c [Hc [Hnd Hcd]]].
      destruct ev as [i|clicked| | | | | |];
        try (match type of Hd with
             | dispatch _ _ _ ?e = _ =>
                 destruct (dispatch_keeps_selection JSON_parse apiClient h h' e t Hs
                             ltac:(discriminate) ltac:(discriminate) Hd)
                   as [_ [Hn [Hx _]]]
             end;
             rewrite Hn, Hx; exact IH).
      * (* a tab *)
        destruct (Nat.eq_dec i (tabValue (cells h))) as [->|Hi].
        -- rewrite (dispatch_unfold JSON_parse apiClient h _ c Hc) in Hd.
           match type of Hd with
           | context [commit apiClient ?h0] =>
               destruct (content_only_commit apiClient h0 c Hc Hnd (ex_intro _ _ Hcd))
                 as [h2 [t2 [Hcm [_ [_ [_ [Hsel _]]]]]]]
           end.
           rewrite Hcm in Hd. injection Hd as <- _.
           intros name Hname. rewrite Hsel in Hname. discriminate Hname.
        -- unfold render in Hv. rewrite Hc in Hv. injection Hv as <-.
           cbn [offered tab_labels] in Ho. apply Nat.ltb_lt in Ho.
           destruct (currentResourceType_defined i Ho) as [ci Hci].
           destruct (tab_change_enters JSON_parse apiClient h i ci Hs Hi Hci)
             as [Hd' [H1 [H2 [H3 H4]]]].
           rewrite Hd' in Hd.
           match type of Hd with
           | context [commit apiClient ?h0] =>
               destruct (commit apiClient h0) as [[h2 t2]|] eqn:Hcm; [|discriminate];
               injection Hd as <- _;
               exact (entering_selection_listed h0 h2 t2 ci H1 H2 H3 H4 Hcm)
           end.
      * (* a listed name *)
        pose proof (offered_click_listed _ _ _ Hv Ho) as Hin.
        destruct (click_commit JSON_parse apiClient h clicked c Hs Hc)
          as [h0 [Hh0 [Hd' [Hnd0 [Hcd0 _]]]]].
        assert (Hc0 : currentResourceType (tabValue (cells h0)) = Some c)
          by (subst h0; exact Hc).
        destruct (content_only_commit apiClient h0 c Hc0 Hnd0 (ex_intro _ _ Hcd0))
          as [h2 [t2 [Hcm [_ [_ [Hnames [Hsel _]]]]]]].
        rewrite Hd', Hcm in Hd. injection Hd as <- _.
        intros name Hname. rewrite Hsel in Hname. rewrite Hnames.
        subst h0. cbn in Hname |- *. congruence.
Qed.

End Interface.

(** ** How many requests an event sends *)

Section Requests.

Variable JSON_parse : string -> option Json.
Variable apiClient : ApiClient.

Lemma commit_some_renders (h : Hooks) (result : Hooks * list Effect) :
  commit apiClient h = Some result ->
  exists category, currentResourceType (tabValue (cells h)) = Some category.
Proof.
  unfold commit, render_pass.
  destruct (currentResourceType (tabValue (cells h))) as [c|]; [|discriminate].
  intros _. exists c. reflexivity.
Qed.

(** X14: on a settled page no event sends more than two requests: a tab
    change sends at most the names request and one content request, a click
    on a name and a save at most one request each, and editing the text,
    switching edit mode, closing the notification and the two stub buttons
    send none. *)
Theorem requests_per_event (h h' : Hooks) (ev : Event) (t : list Effect) :
  settled apiClient h ->
  dispatch JSON_parse apiClient h ev = Some (h', t) ->
  List.length (requests t) <= 2
  /\ match ev with
     | TabChange _ => True
     | ConfigNameClick _ | EditorSave _ => List.length (requests t) <= 1
     | _ => requests t = []
     end.
Proof.
  intros Hs Hd.
  destruct (proj1 (settled_iff apiClient h) Hs) as [c [Hc [Hnd Hcd]]].
  destruct ev as [i|clicked|value|content|flag|reason| |].
  - (* a tab *)
    split; [|exact I].
    destruct (Nat.eq_dec i (tabValue (cells h))) as [->|Hi].
    + rewrite (dispatch_unfold JSON_parse apiClient h _ c Hc) in Hd.
      match type of Hd with
      | context [commit apiClient ?h0] =>
          destruct (content_only_commit apiClient h0 c Hc Hnd (ex_intro _ _ Hcd))
            as [h2 [t2 [Hcm [Hq _]]]]
      end.
      rewrite Hcm in Hd. injection Hd as _ <-.
      cbn [requests]. rewrite Hq. cbn [cells selectedConfigName truthy_name].
      rewrite andb_false_r. cbn. lia.
    + rewrite (dispatch_unfold JSON_parse apiClient h _ c Hc) in Hd.
      match type of Hd with
      | context [commit apiClient ?h0] =>
          destruct (commit apiClient h0) as [r0|] eqn:Hcm; [|discriminate];
          destruct (commit_some_renders h0 r0 Hcm) as [ci Hci]
      end.
      cbn in Hci.
      destruct (tab_change_enters JSON_parse apiClient h i ci Hs Hi Hci)
        as [_ [H1 [H2 [H3 H4]]]].
      destruct (entering_summary apiClient _ ci H1 H2 H3 H4)
        as [h2 [t2 [Hcm2 [_ [_ [_ [[rest [Hq Hlen]] _]]]]]]].
      cbn [handler] in Hcm. rewrite Hcm in Hcm2. injection Hcm2 as ->.
      injection Hd as _ <-.
      cbn [requests]. rewrite Hq. cbn. lia.
  - (* a name *)
    destruct (click_commit JSON_parse apiClient h clicked c Hs Hc)
      as [h0 [Hh0 [Hd' [Hnd0 [Hcd0 _]]]]].
    assert (Hc0 : currentResourceType (tabValue (cells h0)) = Some c)
      by (subst h0; exact Hc).
    destruct (content_only_commit apiClient h0 c Hc0 Hnd0 (ex_intro _ _ Hcd0))
      as [h2 [t2 [Hcm [Hq _]]]].
    rewrite Hd', Hcm in Hd. injection Hd as _ <-.
    cbn [requests app]. rewrite Hq.
    destruct (content_due h0 c && truthy_name (selectedConfigName (cells h0)));
      cbn; lia.
  - destruct (dispatch_keeps_selection JSON_parse apiClient h h' (EditorChange value) t Hs
                ltac:(discriminate) ltac:(discriminate) Hd) as [_ [_ [_ Hq]]].
    rewrite Hq. cbn. split; [lia | reflexivity].
  - (* a save *)
    destruct (dispatch_keeps_selection JSON_parse apiClient h h' (EditorSave content) t Hs
                ltac:(discriminate) ltac:(discriminate) Hd) as [_ [_ [_ Hq]]].
    rewrite Hq, Hc. cbn [handler]. rewrite (proj2 (detached_run _ _)).
    rewrite (proj1 (save_footprint JSON_parse apiClient c (selectedConfigName (cells h))
                      content (cells h))).
    destruct (JSON_parse content); [destruct (truthy_name _)|]; cbn; lia.
  - destruct (dispatch_keeps_selection JSON_parse apiClient h h' (EditorSetIsEditing flag) t Hs
                ltac:(discriminate) ltac:(discriminate) Hd) as [_ [_ [_ Hq]]].
    rewrite Hq. cbn. split; [lia | reflexivity].
  - destruct (dispatch_keeps_selection JSON_parse apiClient h h' (SnackbarClose reason) t Hs
                ltac:(discriminate) ltac:(discriminate) Hd) as [_ [_ [_ Hq]]].
    rewrite Hq. cbn [handler]. unfold handleSnackbarClose.
    destruct (match reason with Some r => (r =? "clickaway")%string | None => false end);
      cbn; split; (lia || reflexivity).
  - destruct (dispatch_keeps_selection JSON_parse apiClient h h' AddClick t Hs
                ltac:(discriminate) ltac:(discriminate) Hd) as [_ [_ [_ Hq]]].
    rewrite Hq. cbn. split; [lia | reflexivity].
  - destruct (dispatch_keeps_selection JSON_parse apiClient h h' DeleteClick t Hs
                ltac:(discriminate) ltac:(discriminate) Hd) as [_ [_ [_ Hq]]].
    rewrite Hq. cbn [handler]. unfold handleDeleteConfig.
    destruct (truthy_name (selectedConfigName (cells h))); cbn; split; (lia || reflexivity).
Qed.

End Requests.

(** ** The editor across a change of category, and while names load *)

Section Editor.

Variable JSON_parse : string -> option Json.
Variable apiClient : ApiClient.



(** X15: while the loading flag is up and no non-empty name is selected
    (as during the first load of the names), the editor is still rendered
    in place of its spinner, so a save can be asked for; that save does
    nothing at all, and the flag stays up. *)
Theorem save_while_names_load_is_ignored (h : Hooks) (v : View) (content : string) :
  settled apiClient h ->
  render (cells h) = Some v ->
  loading (cells h) = true ->
  truthy_name (selectedConfigName (cells h)) = false ->
  name_items v = None
  /\ editor v = Some (configContent (cells h), isEditing (cells h))
  /\ offered v (EditorSave content) = true
  /\ dispatch JSON_parse apiClient h (EditorSave content) = Some (h, []).
Proof.
  intros Hs Hv Hl Hn.
  destruct (proj1 (settled_iff apiClient h) Hs) as [c [Hc _]].
  unfold render in Hv. rewrite Hc in Hv. injection Hv as <-.
  cbn [name_items editor offered]. rewrite Hl, Hn, Nat.eqb_refl. cbn [andb].
  repeat split.
  pose proof (dispatch_save JSON_parse apiClient h c content Hs Hc) as Hd.
  cbv zeta in Hd. rewrite Hd.
  rewrite (save_falsy JSON_parse apiClient c _ content (cells h) Hn).
  cbn. destruct h; reflexivity.
Qed.

End Editor.

(** ** The further properties on sample pages *)

(** Selecting the second tab while editing on the first. *)
Lemma tab_change_loads_category_witness :
  exists h' t,
    dispatch JSON.parse (backend ["X"; "Y"] 200) busy_page (TabChange 1) = Some (h', t)
    /\ tabValue (cells h') = 1
    /\ isEditing (cells h') = true
    /\ loading (cells h') = false.
Proof.
  destruct (tab_change_loads_category JSON.parse (backend ["X"; "Y"] 200) busy_page 1
              "TimeLayouts") as [h' [t [Hd [Ht [He [Hl _]]]]]].
  - vm_compute. reflexivity.
  - cbn. lia.
  - reflexivity.
  - exists h', t. auto.
Defined.

(** [handleTabChange] called with the first tab while it is active and [X]
    is selected on it. *)
Lemma reselecting_tab_deselects_witness :
  exists h' t,
    dispatch JSON.parse (backend ["X"; "Y"] 200) busy_page (TabChange 0) = Some (h', t)
    /\ requests t = []
    /\ selectedConfigName (cells h') = None
    /\ configContent (cells h') = "".
Proof.
  destruct (reselecting_tab_deselects JSON.parse (backend ["X"; "Y"] 200) busy_page)
    as [h' [t [Hd [Hq [_ [_ [Hs [_ [Hc _]]]]]]]]].
  - vm_compute. reflexivity.
  - exists h', t. auto.
Defined.

(** The index 5 is outside the table. *)
Lemma tab_change_defined_iff_witness :
  (exists result,
     dispatch JSON.parse (backend ["X"; "Y"] 200) busy_page (TabChange 5) = Some result)
  <-> 5 < 5.
Proof.
  apply tab_change_defined_iff. vm_compute. reflexivity.
Defined.


(** A click on [X] while [X] is selected and being edited. *)
Lemma click_on_selected_name_keeps_content_witness :
  exists h' t,
    dispatch JSON.parse (backend ["X"; "Y"] 200) busy_page (ConfigNameClick "X")
    = Some (h', t)
    /\ requests t = []
    /\ cells h' = apply_update (setIsEditing false) (cells busy_page).
Proof.
  destruct (click_on_selected_name_keeps_content JSON.parse (backend ["X"; "Y"] 200)
              busy_page "X") as [h' [t [Hd [Hq [Hc _]]]]].
  - vm_compute. reflexivity.
  - reflexivity.
  - exists h', t. auto.
Defined.

(** A click on a name that is the empty string. *)
Lemma click_on_empty_name_clears_content_witness :
  exists h' t,
    dispatch JSON.parse (backend [""; "X"] 200) busy_page (ConfigNameClick "")
    = Some (h', t)
    /\ requests t = []
    /\ selectedConfigName (cells h') = Some ""
    /\ configContent (cells h') = "".
Proof.
  destruct (click_on_empty_name_clears_content JSON.parse (backend [""; "X"] 200)
              busy_page) as [h' [t [Hd [Hq [Hs [Hc _]]]]]].
  - vm_compute. reflexivity.
  - cbn. discriminate.
  - exists h', t. auto.
Defined.

(** A save of [{"a":1}] that the backend accepts. *)
Lemma save_keeps_page_witness :
  exists h' t,
    dispatch JSON.parse (backend ["X"; "Y"] 200) busy_page (EditorSave doc_a1)
    = Some (h', t)
    /\ selectedConfigName (cells h') = Some "X"
    /\ configContent (cells h') = "edited".
Proof.
  destruct (save_keeps_page JSON.parse (backend ["X"; "Y"] 200) busy_page doc_a1)
    as [h' [t [Hd [_ [_ [Hs [Hc _]]]]]]].
  - vm_compute. reflexivity.
  - exists h', t. auto.
Defined.

(** The two stub buttons while [X] is selected. *)
Lemma stub_buttons_only_alert_witness :
  dispatch JSON.parse (backend ["X"; "Y"] 200) busy_page AddClick
  = Some (busy_page, [Alert add_stub_text])
  /\ dispatch JSON.parse (backend ["X"; "Y"] 200) busy_page DeleteClick
     = Some (busy_page, [Alert (delete_stub_text "X")]).
Proof.
  destruct (render (cells busy_page)) as [v|] eqn:Hv; [|vm_compute in Hv; discriminate Hv].
  destruct (stub_buttons_only_alert JSON.parse (backend ["X"; "Y"] 200) busy_page v)
    as [Ha [text [Hd Hname]]].
  - vm_compute. reflexivity.
  - exact Hv.
  - split; [exact Ha|].
    destruct Hname as [name [Hn Ht]].
    + vm_compute in Hv. injection Hv as <-. reflexivity.
    + cbn in Hn. injection Hn as <-. rewrite Hd, Ht. reflexivity.
Defined.

(** A click on [Y] leaves the open error notification of [busy_page] open. *)
Lemma only_close_requests_close_notification_witness :
  exists h' t,
    dispatch JSON.parse (backend ["X"; "Y"] 200) busy_page (ConfigNameClick "Y")
    = Some (h', t)
    /\ snackbarOpen (cells h') = true.
Proof.
  destruct (dispatch JSON.parse (backend ["X"; "Y"] 200) busy_page (ConfigNameClick "Y"))
    as [[h' t]|] eqn:Hd; [|vm_compute in Hd; discriminate Hd].
  exists h', t. split; [reflexivity|].
  apply (only_close_requests_close_notification JSON.parse (backend ["X"; "Y"] 200)
           busy_page h' (ConfigNameClick "Y") t).
  - discriminate.
  - reflexivity.
  - exact Hd.
Defined.

(** The page after mounting and entering edit mode is idle. *)
Lemma reachable_pages_are_idle_witness :
  loading (cells (page_with [""] (Some "") "")) = false.
Proof.
  apply (reachable_pages_are_idle JSON.parse (backend [""] 200)).
  eapply reach_dispatch with (ev := EditorSetIsEditing true).
  - eapply reach_mount. vm_compute. reflexivity.
  - vm_compute. reflexivity.
Defined.

(** The mounted page: the first tab, and [X] is one of the listed names. *)
Lemma ui_pages_are_consistent_witness :
  tabValue (cells mounted_page) < 5
  /\ forall name,
       selectedConfigName (cells mounted_page) = Some name ->
       In name (configNames (cells mounted_page)).
Proof.
  apply (ui_pages_are_consistent JSON.parse (backend ["X"; "Y"] 200)).
  eapply ui_mount. vm_compute. reflexivity.
Defined.

(** The listed name [Y] can be clicked on [busy_page]. *)
Lemma offered_events_are_handled_witness :
  exists h' t,
    dispatch JSON.parse (backend ["X"; "Y"] 200) busy_page (ConfigNameClick "Y")
    = Some (h', t).
Proof.
  eapply offered_events_are_handled; reflexivity.
Defined.

(** A tab change on [busy_page] sends its two requests. *)
Lemma requests_per_event_witness :
  exists h' t,
    dispatch JSON.parse (backend ["X"; "Y"] 200) busy_page (TabChange 1) = Some (h', t)
    /\ List.length (requests t) <= 2.
Proof.
  destruct (dispatch JSON.parse (backend ["X"; "Y"] 200) busy_page (TabChange 1))
    as [[h' t]|] eqn:Hd; [|vm_compute in Hd; discriminate Hd].
  exists h', t. split; [reflexivity|].
  apply (requests_per_event JSON.parse (backend ["X"; "Y"] 200) busy_page h'
           (TabChange 1) t).
  - vm_compute. reflexivity.
  - exact Hd.
Defined.

(** A save asked for while the names are loading. *)
Lemma save_while_names_load_is_ignored_witness :
  dispatch JSON.parse (backend ["X"; "Y"] 200) loading_page (EditorSave doc_a1)
  = Some (loading_page, []).
Proof.
  destruct (render (cells loading_page)) as [v|] eqn:Hv; [|vm_compute in Hv; discriminate Hv].
  apply (save_while_names_load_is_ignored JSON.parse (backend ["X"; "Y"] 200)
           loading_page v doc_a1).
  - vm_compute. reflexivity.
  - exact Hv.
  - reflexivity.
  - reflexivity.
Defined.

